(** * AI study coach: the three-expert education pipeline

    A shallow embedding of [ai_study_coach.py]: the prompt templates of the
    three experts ([AIFoundationsExpert], [PracticalAIExpert],
    [LearningPathExpert]), their [explain] / [enhance] / [finalize] methods
    and the orchestration in [AIEducationTeam.get_ai_education], followed by
    the properties of the pipeline.

    Python [str] values are modelled by [string], holding the UTF-8 bytes of
    the text.  Concatenation, emptiness and equality of texts coincide with
    those of their UTF-8 encodings, and one text occurs inside another
    exactly when its encoding occurs inside the other's encoding. *)

From Stdlib Require Import String Ascii List Bool Arith Lia.
Import ListNotations.
Open Scope string_scope.

(** ** Python values *)

(** [input_data] is a [dict] from field names to free text.  A Python dict
    keeps its items in insertion order, which [str(input_data)] shows, so it
    is an association list; [dict_get] is [dict.get(key, default)]. *)
Definition InputData : Type := list (string * string).

Fixpoint dict_get (d : InputData) (key default : string) : string :=
  match d with
  | [] => default
  | (k, v) :: rest => if String.eqb k key then v else dict_get rest key default
  end.

(** The interpreter's [repr] on [str] (quoting and escaping) is not part of
    the program; it is a parameter of the development. *)
Class PyRuntime : Type := { py_repr : string -> string }.

Fixpoint join (sep : string) (parts : list string) : string :=
  match parts with
  | [] => EmptyString
  | [p] => p
  | p :: rest => p ++ sep ++ join sep rest
  end.

(** [str(input_data)] for a dict: the items [repr(k): repr(v)], separated by
    a comma and a space, between braces. *)
Definition py_str_dict {runtime : PyRuntime} (d : InputData) : string :=
  "{" ++ join ", " (map (fun kv => py_repr (fst kv) ++ ": " ++ py_repr (snd kv)) d) ++ "}".

(** Truth value of [response.text]: [None] and the empty string are false. *)
Definition truthy (text : option string) : bool :=
  match text with
  | None => false
  | Some EmptyString => false
  | Some (String _ _) => true
  end.

(** [a if a else b] on an optional text. *)
Definition text_or (text : option string) (fallback : string) : string :=
  match text with
  | Some t => if truthy text then t else fallback
  | None => fallback
  end.

(** [t] occurs in [s] as a contiguous piece. *)
Definition Contains (s t : string) : Prop :=
  exists pre post : string, s = pre ++ t ++ post.

(** ** The workflow log *)

(** One entry of [workflow_log["steps"]]. *)
Record StageRecord : Type := mkStageRecord {
  expert : string;
  action : string;
  step_timestamp : string
}.

(** The [workflow_log] dict.  The key ["error"] is absent until the handler
    of [get_ai_education] sets it. *)
Record RunLog : Type := mkRunLog {
  log_service_type : string;
  log_timestamp : string;
  log_experts_involved : list string;
  log_steps : list StageRecord;
  log_status : string;
  log_error : option string
}.

Definition append_step (r : StageRecord) (l : RunLog) : RunLog :=
  mkRunLog (log_service_type l) (log_timestamp l) (log_experts_involved l)
           (log_steps l ++ [r]) (log_status l) (log_error l).

Definition set_status (st : string) (l : RunLog) : RunLog :=
  mkRunLog (log_service_type l) (log_timestamp l) (log_experts_involved l)
           (log_steps l) st (log_error l).

Definition set_error (e : string) (l : RunLog) : RunLog :=
  mkRunLog (log_service_type l) (log_timestamp l) (log_experts_involved l)
           (log_steps l) (log_status l) (Some e).

(** ** External collaborators *)

(** What [model.generate_content(prompt)] followed by reading
    [response.text] gives: a text, possibly [None] or empty, or an exception
    whose [str] is [message]. *)
Inductive Response : Type :=
| Generated (text : option string)
| ModelError (message : string).

(** The exceptions by which Streamlit ends a script run from inside a
    call: [StopException] and [RerunException].  They derive from
    [BaseException] and not from [Exception]. *)
Inductive Signal : Type :=
| stop_script
| rerun_script.

(** What a call raises: an [Exception], given by its [str], or one of the
    script-control exceptions of Streamlit. *)
Inductive Thrown : Type :=
| exception (message : string)
| script_control (signal : Signal).

(** The Streamlit calls made by [get_ai_education]. *)
Inductive UICall : Type :=
| st_container
| st_markdown (body : string)
| st_spinner (text : string)
| st_success (body : string)
| st_error (body : string).

(** The world outside the program, with state [Env]: the model client, the
    Streamlit front end (a call returns, [None], or raises), the clock read
    through [datetime.now().strftime(fmt)], and [time.sleep]. *)
Class Collaborators (Env : Type) : Type := {
  generate_content : string -> Env -> Response * Env;
  streamlit : UICall -> Env -> option Thrown * Env;
  strftime_now : string -> Env -> string;
  time_sleep : nat -> Env -> Env
}.

(** ** Effects *)

(** A call returns a value or raises. *)
Inductive Outcome (A : Type) : Type :=
| Returned (a : A)
| Raised (e : Thrown).
Arguments Returned {A} a.
Arguments Raised {A} e.

(** The state a run works on.  [self_workflow_logs] is [self.workflow_logs];
    [workflow_log] is the local variable of [get_ai_education], [None] while
    it is unbound.  Two fields only observe the run: [log_history] lists
    every value the dict bound to [workflow_log] has taken, in order, and
    [model_calls] lists the prompts sent to the model with what came back. *)
Record State (Env : Type) : Type := mkState {
  env : Env;
  self_workflow_logs : list RunLog;
  workflow_log : option RunLog;
  log_history : list RunLog;
  model_calls : list (string * Response)
}.
Arguments mkState {Env}.
Arguments env {Env}.
Arguments self_workflow_logs {Env}.
Arguments workflow_log {Env}.
Arguments log_history {Env}.
Arguments model_calls {Env}.

Definition M (Env A : Type) : Type := State Env -> Outcome A * State Env.

Definition ret {Env A : Type} (a : A) : M Env A :=
  fun s => (Returned a, s).

Definition raise {Env A : Type} (e : Thrown) : M Env A :=
  fun s => (Raised e, s).

Definition bind {Env A B : Type} (m : M Env A) (k : A -> M Env B) : M Env B :=
  fun s =>
    match m s with
    | (Returned a, s') => k a s'
    | (Raised e, s') => (Raised e, s')
    end.

Notation "x <- m ;; k" := (bind m (fun x => k))
  (at level 61, m at next level, right associativity).
Notation "m ;;; k" := (bind m (fun _ => k))
  (at level 61, right associativity).

(** [try: body except Exception as e: handler].  The handler gets [str(e)];
    what is not an [Exception] passes through. *)
Definition try_except {Env A : Type} (body : M Env A)
  (handler : string -> M Env A) : M Env A :=
  fun s =>
    match body s with
    | (Returned a, s') => (Returned a, s')
    | (Raised (exception e), s') => handler e s'
    | (Raised (script_control signal), s') => (Raised (script_control signal), s')
    end.

(** [with ctx: body]: the context expression is evaluated, then the body
    runs; leaving the block does not swallow an exception. *)
Definition with_ {Env A : Type} (ctx : M Env unit) (body : M Env A) : M Env A :=
  ctx ;;; body.

Section Primitives.
Context {Env : Type} {world : Collaborators Env}.

(** [response = self.model.generate_content(prompt)] and the reading of
    [response.text]. *)
Definition model_generate_content (prompt : string) : M Env (option string) :=
  fun s =>
    let (r, e') := generate_content prompt (env s) in
    let s' := mkState e' (self_workflow_logs s) (workflow_log s)
                      (log_history s) (model_calls s ++ [(prompt, r)]) in
    match r with
    | Generated text => (Returned text, s')
    | ModelError message => (Raised (exception message), s')
    end.

Definition st (c : UICall) : M Env unit :=
  fun s =>
    let (r, e') := streamlit c (env s) in
    let s' := mkState e' (self_workflow_logs s) (workflow_log s)
                      (log_history s) (model_calls s) in
    match r with
    | None => (Returned tt, s')
    | Some thrown => (Raised thrown, s')
    end.

Definition datetime_now_strftime (fmt : string) : M Env string :=
  fun s => (Returned (strftime_now fmt (env s)), s).

Definition sleep (seconds : nat) : M Env unit :=
  fun s =>
    (Returned tt,
     mkState (time_sleep seconds (env s)) (self_workflow_logs s)
             (workflow_log s) (log_history s) (model_calls s)).

(** [workflow_log = {...}]. *)
Definition assign_workflow_log (l : RunLog) : M Env unit :=
  fun s =>
    (Returned tt,
     mkState (env s) (self_workflow_logs s) (Some l)
             (log_history s ++ [l]) (model_calls s)).

(** A statement that updates the dict bound to [workflow_log]; reading an
    unbound local raises [UnboundLocalError]. *)
Definition update_workflow_log (f : RunLog -> RunLog) : M Env unit :=
  fun s =>
    match workflow_log s with
    | Some l =>
        (Returned tt,
         mkState (env s) (self_workflow_logs s) (Some (f l))
                 (log_history s ++ [f l]) (model_calls s))
    | None =>
        (Raised
           (exception "cannot access local variable 'workflow_log' where it is not associated with a value"),
         s)
    end.

(** [self.workflow_logs.append(workflow_log)]. *)
Definition append_workflow_log : M Env unit :=
  fun s =>
    match workflow_log s with
    | Some l =>
        (Returned tt,
         mkState (env s) (self_workflow_logs s ++ [l]) (workflow_log s)
                 (log_history s) (model_calls s))
    | None =>
        (Raised
           (exception "cannot access local variable 'workflow_log' where it is not associated with a value"),
         s)
    end.

End Primitives.

(** ** [AIFoundationsExpert], the first expert: core concepts and theory *)

Module AIFoundationsExpert.

Section Expert.
Context {Env : Type} {world : Collaborators Env} {runtime : PyRuntime}.

Definition expertise : string :=
  "ai_foundations".

Definition expert_name : string :=
  "김민준 AI 기초 전문가".

Definition expert_intro : string :=
  "
        안녕하세요, 김민준 AI 기초 전문가입니다. 
        저는 인공지능의 핵심 개념과 이론적 배경을 쉽게 설명합니다.
        12년간 AI 연구와 교육 경험을 바탕으로 복잡한 개념을 명확하게 전달해 드리겠습니다.
        ".

Definition _create_concept_prompt (input_data : InputData) : string :=
  "
        다음 AI 개념에 대해 기초적인 설명을 제공해주세요:
        
        "
  ++ dict_get input_data "concept" EmptyString
  ++ "
        
        다음 항목을 포함하는 기초 설명을 제공해주세요:
        1. 개념의 정의와 핵심 원리
        2. 역사적 배경과 발전 과정
        3. 작동 방식의 기본 원리
        4. 해당 기술이 속한 AI 분야에서의 위치
        5. 이해하기 쉬운 비유나 예시
        ".

Definition _create_tool_basics_prompt (input_data : InputData) : string :=
  "
        다음 AI 도구의 기본 원리와 개념에 대해 설명해주세요:
        
        도구 이름:
        "
  ++ dict_get input_data "tool_name" EmptyString
  ++ "
        
        사용 목적:
        "
  ++ dict_get input_data "purpose" EmptyString
  ++ "
        
        다음 항목을 포함하는 기초 설명을 제공해주세요:
        1. 해당 도구가 기반하는 AI 기술 설명
        2. 핵심 작동 원리와 알고리즘
        3. 비슷한 도구들과의 차이점
        4. 기술적 한계와 주의사항
        5. 초보자가 이해해야 할 핵심 개념
        ".

Definition _create_learning_basics_prompt (input_data : InputData) : string :=
  "
        AI 학습을 위한 기초 개념과 배경 지식을 설명해주세요:
        
        현재 지식 수준:
        "
  ++ dict_get input_data "current_level" EmptyString
  ++ "
        
        학습 목표:
        "
  ++ dict_get input_data "goals" EmptyString
  ++ "
        
        다음 항목을 포함한 기초 설명을 제공해주세요:
        
        1. AI 학습을 위한 필수 기초 개념
           - 기계학습의 핵심 원리
           - 딥러닝과 신경망의 기초
           - AI 모델 학습 과정의 이해
        
        2. 학습 목표를 위해 알아야 할 이론적 배경
           - 관련 수학적/통계적 개념
           - 프로그래밍 관련 기초 지식
           - 데이터 관련 핵심 개념
        
        3. 학습 난이도와 선수 지식 설명
           - 필수적으로 알아야 할 개념
           - 추가적으로 도움이 될 배경 지식
           - 개념 간의 연결성과 학습 순서
        ".

Definition _create_ethics_basics_prompt (input_data : InputData) : string :=
  "
        AI 윤리 및 안전에 관한 기초 개념을 설명해주세요:
        
        관심 분야:
        "
  ++ dict_get input_data "area_of_interest" EmptyString
  ++ "
        
        다음 구조로 AI 윤리 및 안전의 기초 개념을 설명해주세요:
        
        1. AI 윤리의 기본 원칙
           - 핵심 윤리적 프레임워크
           - 주요 윤리적 고려사항
           - 산업 표준과 가이드라인
        
        2. AI 안전의 기술적 기초
           - 안전 관련 기술적 개념
           - 주요 위험 요소와 취약점
           - 안전 설계의 기본 원칙
        
        3. 법적/사회적 관점
           - 관련 규제와 정책 동향
           - 사회적 영향과 책임
           - 투명성과 설명 가능성의 중요성
        ".

Definition _create_cs_spec_basics_prompt (input_data : InputData) : string :=
  "
        CS 학생을 위한 스펙 가이드의 기초 개념과 이론적 배경을 설명해주세요:
        
        현재 상황:
        "
  ++ dict_get input_data "current_situation" EmptyString
  ++ "
        
        목표:
        "
  ++ dict_get input_data "career_goals" EmptyString
  ++ "
        
        다음 항목을 포함한 기초 설명을 제공해주세요:
        
        1. CS 전공의 핵심 기초 개념
           - 컴퓨터과학의 기본 원리와 이론적 배경
           - 프로그래밍 언어의 분류와 특징
           - 자료구조와 알고리즘의 중요성
           - 소프트웨어 개발 생명주기
        
        2. 학년별 필수 이론 지식
           - 1-2학년: 기초 수학, 프로그래밍 기초, 컴퓨터 구조
           - 3-4학년: 고급 알고리즘, 시스템 설계, 전공 심화
           - 각 학년별로 필요한 수학적 배경과 이론적 기초
        
        3. 기술 스택의 이론적 이해
           - 웹 개발: HTTP, REST API, 데이터베이스 이론
           - 모바일 개발: 플랫폼별 아키텍처, 네이티브 vs 크로스플랫폼
           - AI/ML: 머신러닝 이론, 통계학, 선형대수학
           - 클라우드: 분산시스템, 마이크로서비스 아키텍처
        
        4. 학업 성취도와 GPA의 중요성
           - 전공 GPA의 의미와 중요성
           - 각 학년별 권장 GPA 목표
           - 수학, 전공 과목의 가중치와 중요도
        ".

Definition _create_general_foundations_prompt (input_data : InputData) (service_type : string) : string :=
  "
        다음 "
  ++ service_type
  ++ " 요청에 대해 AI 기초 개념 관점에서 설명해주세요:
        
        요청 내용:
        "
  ++ py_str_dict input_data
  ++ "
        
        핵심 개념, 이론적 배경, 기술적 원리를 포함한 기초 설명을 제공해주세요.
        ".

(** The [if]/[elif] chain of [explain] (lines 170-181): the template for the
    service type, the general one for every other string. *)
Definition select_prompt (service_type : string) (input_data : InputData) : string :=
  if String.eqb service_type "AI 개념 이해" then
    _create_concept_prompt input_data
  else if String.eqb service_type "AI 도구 사용법" then
    _create_tool_basics_prompt input_data
  else if String.eqb service_type "AI 학습 계획" then
    _create_learning_basics_prompt input_data
  else if String.eqb service_type "AI 윤리 및 안전" then
    _create_ethics_basics_prompt input_data
  else if String.eqb service_type "CS 학생 스펙 가이드" then
    _create_cs_spec_basics_prompt input_data
  else
    _create_general_foundations_prompt input_data service_type.

(** The expert's persona wrapped around the selected template (lines 184-192). *)
Definition persona_prompt (prompt : string) : string :=
  "
            당신은 '"
  ++ expert_name
  ++ "'이라는 AI 기초 개념 전문가입니다.
            "
  ++ expert_intro
  ++ "
            
            "
  ++ prompt
  ++ "
            
            설명 결과에 핵심 개념과 이론적 배경을 반드시 포함해 주세요.
            가능한 한 복잡한 용어는 피하고, 초보자도 이해할 수 있는 명확한 설명을 제공하세요.
            ".

(** The prompt [explain] sends to the model. *)
Definition composed_prompt (service_type : string) (input_data : InputData) : string :=
  persona_prompt (select_prompt service_type input_data).

Definition no_response : string :=
  "응답을 생성할 수 없습니다. 다시 시도해주세요.".

Definition error_text (e : string) : string :=
  "기초 개념 설명 중 오류가 발생했습니다: "
  ++ e.

Definition explain (service_type : string) (input_data : InputData) : M Env string :=
  try_except
    (let prompt := select_prompt service_type input_data in
     let prompt := persona_prompt prompt in
     response_text <- model_generate_content prompt ;;
     ret (text_or response_text no_response))
    (fun e => ret (error_text e)).

End Expert.

End AIFoundationsExpert.

(** ** [PracticalAIExpert], the second expert: practical application of the first expert's explanation *)

Module PracticalAIExpert.

Section Expert.
Context {Env : Type} {world : Collaborators Env} {runtime : PyRuntime}.

Definition expertise : string :=
  "practical_applications".

Definition expert_name : string :=
  "박서연 실무 응용 전문가".

Definition expert_intro : string :=
  "
        안녕하세요, 박서연 실무 응용 전문가입니다.
        저는 AI의 실무 적용 방법과 현업 사례를 전문으로 합니다.
        10년간의 AI 프로젝트 구현 및 컨설팅 경험을 통해 이론을 실제로 적용하는 방법을 안내해 드리겠습니다.
        ".

Definition _create_concept_practical_prompt (previous_explanation : string) (input_data : InputData) : string :=
  "
        앞서 설명된 AI 개념의 실무 활용 사례와 적용 방법을 제시해주세요:
        
        1. 해당 개념의 주요 산업별 활용 사례
           - 기술 기업에서의 활용법
           - 금융, 의료, 교육 등 다양한 분야의 적용 예시
           - 스타트업과 대기업의 적용 차이
        
        2. 실제 구현 시 고려사항
           - 일반적인 구현 과정과 단계
           - 자주 발생하는 문제점과 해결 방법
           - 필요한 인프라 및 리소스
        
        3. 최신 트렌드와 미래 전망
           - 현재 업계 동향과 기술 발전 방향
           - 주목할 만한 혁신 사례
           - 미래 잠재적 응용 분야
        
        원본 개념:
        "
  ++ dict_get input_data "concept" EmptyString
  ++ "
        ".

Definition _create_tool_practical_prompt (previous_explanation : string) (input_data : InputData) : string :=
  "
        앞서 설명된 AI 도구의 실전 사용법과 활용 사례를 제시해주세요:
        
        1. 도구의 실제 사용 시나리오
           - 일반적인 사용 워크플로우
           - 효과적인 활용을 위한 설정 및 팁
           - 고급 활용법과 숨겨진 기능
        
        2. 산업별 활용 사례
           - 대표적인 성공 사례 분석
           - 실제 비즈니스 가치와 ROI
           - 사용자 피드백과 평가
        
        3. 유사 도구와의 비교 및 통합
           - 경쟁 도구와의 장단점 비교
           - 다른 AI 도구와의 통합 방법
           - 생태계 내 위치와 호환성
        
        도구 이름:
        "
  ++ dict_get input_data "tool_name" EmptyString
  ++ "
        
        사용 목적:
        "
  ++ dict_get input_data "purpose" EmptyString
  ++ "
        ".

Definition _create_learning_practical_prompt (previous_explanation : string) (input_data : InputData) : string :=
  "
        AI 학습을 위한 실무 중심 접근법과 실전 적용 방법을 제안해주세요:
        
        1. 실무 중심 학습 방법론
           - 프로젝트 기반 학습 접근법
           - 실제 문제 해결을 통한 학습 전략
           - 업계 표준 도구 및 워크플로우 습득법
        
        2. 실전 경험 구축 방법
           - 포트폴리오 프로젝트 아이디어
           - 오픈소스 기여 및 커뮤니티 참여 방법
           - 인턴십 및 실무 경험 확보 전략
        
        3. 업계 연결 및 네트워킹
           - 주요 커뮤니티 및 컨퍼런스 소개
           - 전문가 네트워킹 구축 방법
           - AI 분야 취업/전환 준비 전략
        
        현재 지식 수준:
        "
  ++ dict_get input_data "current_level" EmptyString
  ++ "
        
        학습 목표:
        "
  ++ dict_get input_data "goals" EmptyString
  ++ "
        ".

Definition _create_ethics_practical_prompt (previous_explanation : string) (input_data : InputData) : string :=
  "
        AI 윤리 및 안전의 실무 적용 방법과 사례를 제시해주세요:
        
        1. 윤리적 설계 및 개발 실무
           - 윤리적 AI 개발 프로세스 및 프레임워크
           - 실제 프로젝트에서의 윤리적 검토 방법
           - 윤리적 문제 발견 및 해결 사례
        
        2. 규제 준수 및 거버넌스
           - 주요 규제 준수 전략
           - 윤리위원회 및 감독 메커니즘 구축
           - 문서화 및 투명성 확보 방법
        
        3. 현업 사례 분석
           - 윤리적 문제로 인한 실패 사례
           - 성공적인 윤리적 AI 구현 사례
           - 업계별 특수한 윤리적 고려사항
        
        관심 분야:
        "
  ++ dict_get input_data "area_of_interest" EmptyString
  ++ "
        ".

Definition _create_cs_spec_practical_prompt (previous_explanation : string) (input_data : InputData) : string :=
  "
        CS 학생을 위한 스펙 가이드의 실무 적용 사례와 업계 동향을 제시해주세요:
        
        현재 상황:
        "
  ++ dict_get input_data "current_situation" EmptyString
  ++ "
        
        목표:
        "
  ++ dict_get input_data "career_goals" EmptyString
  ++ "
        
        다음 항목을 포함한 실무 관점의 설명을 제공해주세요:
        
        1. 업계별 실제 요구사항과 스펙
           - 빅테크 (구글, 마이크로소프트, 아마존): 알고리즘, 시스템 설계, 클라우드
           - 스타트업: 풀스택 개발, 빠른 학습 능력, 다양한 기술 스택
           - 금융/핀테크: 보안, 규정 준수, 고성능 시스템
           - 게임/엔터테인먼트: 실시간 처리, 그래픽스, 최적화
        
        2. 학년별 실무 경험 구축 방법
           - 1-2학년: 개인 프로젝트, 해커톤 참여, 오픈소스 기여
           - 3-4학년: 인턴십, 대회 참여, 스타트업 아르바이트
           - 졸업 후: 포트폴리오 구축, 네트워킹, 기술 블로그
        
        3. 실제 채용 프로세스와 평가 기준
           - 코딩 테스트: 알고리즘, 자료구조, 문제 해결 능력
           - 기술 면접: 시스템 설계, 아키텍처, 트레이드오프
           - 포트폴리오: 프로젝트의 기술적 깊이와 비즈니스 임팩트
           - 소프트 스킬: 커뮤니케이션, 팀워크, 학습 능력
        
        4. 최신 기술 트렌드와 업계 동향
           - AI/ML: MLOps, LLM, 생성형 AI
           - 클라우드: 멀티클라우드, 서버리스, 컨테이너
           - 웹 개발: JAMstack, 마이크로프론트엔드, WebAssembly
           - 모바일: 크로스플랫폼, PWA, 모바일 최적화
        ".

Definition _create_general_practical_prompt (previous_explanation : string) (input_data : InputData) (service_type : string) : string :=
  "
        다음 "
  ++ service_type
  ++ " 요청에 대해 AI 실무 응용 관점에서 분석해주세요:
        
        요청 내용:
        "
  ++ py_str_dict input_data
  ++ "
        
        실제 활용 사례, 구현 방법, 업계 트렌드를 구체적으로 제시해주세요.
        ".

(** The [if]/[elif] chain of [enhance] (lines 354-365): the template for the
    service type, the general one for every other string. *)
Definition select_prompt (previous_explanation : string) (service_type : string) (input_data : InputData) : string :=
  if String.eqb service_type "AI 개념 이해" then
    _create_concept_practical_prompt previous_explanation input_data
  else if String.eqb service_type "AI 도구 사용법" then
    _create_tool_practical_prompt previous_explanation input_data
  else if String.eqb service_type "AI 학습 계획" then
    _create_learning_practical_prompt previous_explanation input_data
  else if String.eqb service_type "AI 윤리 및 안전" then
    _create_ethics_practical_prompt previous_explanation input_data
  else if String.eqb service_type "CS 학생 스펙 가이드" then
    _create_cs_spec_practical_prompt previous_explanation input_data
  else
    _create_general_practical_prompt previous_explanation input_data service_type.

(** The expert's persona wrapped around the selected template (lines 368-381). *)
Definition persona_prompt (previous_explanation : string) (prompt : string) : string :=
  "
            당신은 '"
  ++ expert_name
  ++ "'이라는 AI 실무 응용 전문가입니다.
            "
  ++ expert_intro
  ++ "
            
            AI 기초 전문가가 제공한 다음 설명을 검토하고, 실무 응용 관점에서 보완해주세요:
            
            === 기초 전문가의 설명 ===
            "
  ++ previous_explanation
  ++ "
            === 설명 끝 ===
            
            "
  ++ prompt
  ++ "
            
            구체적인 실무 사례, 적용 방법, 업계 동향과 트렌드를 반드시 포함해 주세요.
            ".

(** The prompt [enhance] sends to the model. *)
Definition composed_prompt (previous_explanation : string) (service_type : string) (input_data : InputData) : string :=
  persona_prompt previous_explanation (select_prompt previous_explanation service_type input_data).

Definition no_response : string :=
  "실무 응용 설명을 생성할 수 없습니다. 다시 시도해주세요.".

Definition error_text (e : string) : string :=
  "실무 응용 설명 중 오류가 발생했습니다: "
  ++ e.

Definition enhance (previous_explanation : string) (service_type : string) (input_data : InputData) : M Env string :=
  try_except
    (let prompt := select_prompt previous_explanation service_type input_data in
     let prompt := persona_prompt previous_explanation prompt in
     response_text <- model_generate_content prompt ;;
     ret (text_or response_text no_response))
    (fun e => ret (error_text e)).

End Expert.

End PracticalAIExpert.

(** ** [LearningPathExpert], the third expert: the learning path that closes the guidance *)

Module LearningPathExpert.

Section Expert.
Context {Env : Type} {world : Collaborators Env} {runtime : PyRuntime}.

Definition expertise : string :=
  "learning_pathways".

Definition expert_name : string :=
  "이준호 학습 경로 전문가".

Definition expert_intro : string :=
  "
        안녕하세요, 이준호 학습 경로 전문가입니다.
        저는 AI 학습 계획 수립과 성장 로드맵 설계를 전문으로 합니다.
        15년간의 교육 경험을 바탕으로 여러분에게 최적화된 학습 경로를 제안해 드리겠습니다.
        ".

Definition _create_concept_learning_prompt (previous_explanation : string) (input_data : InputData) : string :=
  "
        해당 AI 개념을 효과적으로 학습하기 위한 맞춤형 학습 경로를 제안해주세요:
        
        1. 단계별 학습 계획
           - 초보자부터 전문가까지의 학습 단계
           - 각 단계별 핵심 목표와 성취 지표
           - 예상 소요 시간과 난이도
        
        2. 최적의 학습 자원
           - 추천 온라인 강의, 책, 튜토리얼
           - 무료 및 유료 자원 균형있는 추천
           - 자기주도 학습 vs 지도 학습 옵션
        
        3. 실습 및 응용 프로젝트
           - 단계별 핸즈온 프로젝트 아이디어
           - 학습 내용 검증을 위한 미니 프로젝트
           - 포트폴리오에 추가할 수 있는 응용 과제
        
        4. 학습 진행 측정 및 피드백 방법
           - 자가 평가 방법
           - 지식 검증 및 진단 도구
           - 커뮤니티 피드백 활용법
        
        원본 개념:
        "
  ++ dict_get input_data "concept" EmptyString
  ++ "
        ".

Definition _create_tool_learning_prompt (previous_explanation : string) (input_data : InputData) : string :=
  "
        해당 AI 도구의 숙련도를 높이기 위한 학습 경로를 제안해주세요:
        
        1. 도구 숙련 로드맵
           - 초보자부터 전문가까지의 학습 단계
           - 단계별 기능 익히기 순서
           - 숙련도 수준별 목표와 평가 방법
        
        2. 실습 중심 학습 계획
           - 핵심 기능별 실습 과제
           - 난이도별 프로젝트 아이디어
           - 실전 시나리오 기반 연습
        
        3. 보완 학습 자원
           - 공식 및 비공식 문서와 튜토리얼
           - 커뮤니티 및 포럼 활용법
           - 전문가 인사이트 및 고급 팁 확보 방법
        
        4. 지속적 역량 개발 전략
           - 최신 기능 및 업데이트 학습법
           - 관련 도구 및 확장 기술 습득
           - 전문성 증명 및 인증 방법
        
        도구 이름:
        "
  ++ dict_get input_data "tool_name" EmptyString
  ++ "
        
        사용 목적:
        "
  ++ dict_get input_data "purpose" EmptyString
  ++ "
        ".

Definition _create_comprehensive_learning_prompt (previous_explanation : string) (input_data : InputData) : string :=
  "
        목표 달성을 위한 종합적인 AI 학습 로드맵을 제안해주세요:
        
        1. 개인화된 학습 경로
           - 현재 수준에서 목표까지의 단계별 계획
           - 학습자 특성에 맞는 접근법 및 방법론
           - 단기/중기/장기 목표 설정 및 마일스톤
        
        2. 핵심 학습 자원 큐레이션
           - 온라인 코스, 책, 튜토리얼 등 선별된 자원
           - 품질과 적합성 기준의 자원 평가
           - 비용 효율적인 학습 자원 활용 전략
        
        3. 실전 경험 구축 프레임워크
           - 단계적 프로젝트 구성 계획
           - 포트폴리오 구축 전략
           - 실전 환경 시뮬레이션 및 연습 방법
        
        4. 지속적 피드백 및 개선 시스템
           - 진행 상황 모니터링 및 평가 방법
           - 멘토십 및 코칭 활용 전략
           - 학습 습관 및 효율성 개선 방법
        
        5. 학습 여정 시간표
           - 주간/월간/분기별 학습 일정 제안
           - 시간 관리 및 학습 균형 전략
           - 장애물 극복 및 동기 유지 방법
        
        현재 지식 수준:
        "
  ++ dict_get input_data "current_level" EmptyString
  ++ "
        
        학습 목표:
        "
  ++ dict_get input_data "goals" EmptyString
  ++ "
        ".

Definition _create_ethics_learning_prompt (previous_explanation : string) (input_data : InputData) : string :=
  "
        AI 윤리 및 안전에 대한 체계적인 학습 경로를 제안해주세요:
        
        1. 윤리적 AI 역량 개발 로드맵
           - 기초부터 고급까지의 학습 단계
           - 역할별 필요 지식과 역량(개발자/관리자/정책입안자)
           - 윤리적 사고방식과 평가 능력 개발
        
        2. 추천 학습 자원
           - 교재, 온라인 코스, 케이스 스터디
           - 윤리적 프레임워크 및 도구
           - 인증 및 전문가 과정
        
        3. 실습 및 토론 기반 학습
           - 윤리적 딜레마 시나리오 분석
           - 그룹 토론 및 사례 연구 방법
           - 윤리적 감사 및 평가 실습
        
        4. 지속적인 역량 발전 계획
           - 윤리적 AI 분야 최신 동향 파악 방법
           - 전문가 커뮤니티 및 컨퍼런스 참여
           - 자기 평가 및 성찰 방법론
        
        관심 분야:
        "
  ++ dict_get input_data "area_of_interest" EmptyString
  ++ "
        ".

Definition _create_cs_spec_learning_prompt (previous_explanation : string) (input_data : InputData) : string :=
  "
        CS 학생을 위한 맞춤형 스펙 구축 학습 경로를 제안해주세요:
        
        현재 상황:
        "
  ++ dict_get input_data "current_situation" EmptyString
  ++ "
        
        목표:
        "
  ++ dict_get input_data "career_goals" EmptyString
  ++ "
        
        다음 구조로 구체적인 학습 경로를 제안해주세요:
        
        1. 단계별 스펙 구축 로드맵
           - 1단계 (1-3개월): 기초 기술 스택 완성
           - 2단계 (3-6개월): 프로젝트 경험 쌓기
           - 3단계 (6-12개월): 전문 분야 심화
           - 4단계 (12개월+): 포트폴리오 완성 및 취업 준비
        
        2. 학년별 구체적인 학습 계획
           - 1학년: 프로그래밍 기초, 수학 기초, 컴퓨터 구조
           - 2학년: 자료구조/알고리즘, 웹 개발 기초, 데이터베이스
           - 3학년: 프레임워크 숙련, 클라우드 기초, 인턴십 준비
           - 4학년: 전문 분야 심화, 포트폴리오 완성, 취업 준비
        
        3. 추천 학습 자원과 도구
           - 온라인 강의: Coursera, edX, Udemy, 인프런
           - 책: 각 분야별 필수 서적과 참고서
           - 실습 환경: GitHub, AWS Free Tier, Docker
           - 커뮤니티: Stack Overflow, Reddit, 기술 블로그
        
        4. 프로젝트 포트폴리오 구축 전략
           - 개인 프로젝트: 3-5개의 완성된 프로젝트
           - 오픈소스 기여: GitHub 활동, 기여도 증명
           - 기술 블로그: 학습 과정과 프로젝트 기록
           - 대회 참여: 해커톤, 알고리즘 대회, 해커랭크
        
        5. GPA 관리 및 학업 전략
           - 전공 과목 우선순위와 학습 방법
           - 수학 과목의 중요성과 학습 전략
           - 프로젝트와 학업의 균형 맞추기
           - 각 학년별 목표 GPA 설정
        
        6. 취업 준비 체크리스트
           - 이력서 작성: 기술 스택, 프로젝트 경험
           - 포트폴리오 사이트: GitHub Pages, 개인 웹사이트
           - 코딩 테스트 준비: LeetCode, 프로그래머스
           - 면접 준비: 기술 면접, 시스템 설계, 행동 면접
        
        7. 네트워킹과 커리어 개발
           - 기술 컨퍼런스 참여: PyCon, JSConf, AWS Summit
           - 멘토링: 선배, 교수, 업계 전문가
           - 인턴십 신청: 대기업, 스타트업, 중견기업
           - 자격증 취득: AWS, Google Cloud, 정보처리기사
        ".

Definition _create_general_learning_prompt (previous_explanation : string) (input_data : InputData) (service_type : string) : string :=
  "
        다음 "
  ++ service_type
  ++ " 요청에 대해 학습 경로 관점에서 맞춤형 계획을 제안해주세요:
        
        요청 내용:
        "
  ++ py_str_dict input_data
  ++ "
        
        체계적인 학습 단계, 추천 자원, 실습 계획, 진행 평가 방법을 구체적으로 제시해주세요.
        ".

(** The [if]/[elif] chain of [finalize] (lines 557-568): the template for the
    service type, the general one for every other string. *)
Definition select_prompt (previous_explanation : string) (service_type : string) (input_data : InputData) : string :=
  if String.eqb service_type "AI 개념 이해" then
    _create_concept_learning_prompt previous_explanation input_data
  else if String.eqb service_type "AI 도구 사용법" then
    _create_tool_learning_prompt previous_explanation input_data
  else if String.eqb service_type "AI 학습 계획" then
    _create_comprehensive_learning_prompt previous_explanation input_data
  else if String.eqb service_type "AI 윤리 및 안전" then
    _create_ethics_learning_prompt previous_explanation input_data
  else if String.eqb service_type "CS 학생 스펙 가이드" then
    _create_cs_spec_learning_prompt previous_explanation input_data
  else
    _create_general_learning_prompt previous_explanation input_data service_type.

(** The expert's persona wrapped around the selected template (lines 571-589). *)
Definition persona_prompt (previous_explanation : string) (prompt : string) : string :=
  "
            당신은 '"
  ++ expert_name
  ++ "'이라는 학습 경로 전문가입니다.
            "
  ++ expert_intro
  ++ "
            
            기초 전문가와 실무 응용 전문가가 제공한, 다음 설명을 검토하고 최종적으로 학습 경로를 완성해주세요:
            
            === 이전 전문가들의 설명 ===
            "
  ++ previous_explanation
  ++ "
            === 설명 끝 ===
            
            "
  ++ prompt
  ++ "
            
            최종 안내에는 다음 세 전문가의 관점이 균형있게 통합되어야 합니다:
            1. 기초 개념 전문가 (핵심 개념과 이론적 배경)
            2. 실무 응용 전문가 (실제 적용 사례와 업계 통찰력)
            3. 학습 경로 전문가 (개인화된 학습 계획과 자원)
            
            명확하고 실행 가능한 단계별 학습 가이드를 제공해주세요.
            ".

(** The prompt [finalize] sends to the model. *)
Definition composed_prompt (previous_explanation : string) (service_type : string) (input_data : InputData) : string :=
  persona_prompt previous_explanation (select_prompt previous_explanation service_type input_data).

Definition no_response : string :=
  "학습 경로를 생성할 수 없습니다. 다시 시도해주세요.".

Definition error_text (e : string) : string :=
  "학습 경로 생성 중 오류가 발생했습니다: "
  ++ e.

Definition finalize (previous_explanation : string) (service_type : string) (input_data : InputData) : M Env string :=
  try_except
    (let prompt := select_prompt previous_explanation service_type input_data in
     let prompt := persona_prompt previous_explanation prompt in
     response_text <- model_generate_content prompt ;;
     ret (text_or response_text no_response))
    (fun e => ret (error_text e)).

End Expert.

End LearningPathExpert.

(** ** [AIEducationTeam], the pipeline *)

Module AIEducationTeam.

Section Team.
Context {Env : Type} {world : Collaborators Env} {runtime : PyRuntime}.

Definition apology : string :=
  "죄송합니다. 처리 중 오류가 발생했습니다. 다시 시도해주세요.".

(** The [try] block of [get_ai_education] (lines 85-138).  The value bound
    in a [with] block and used after it is what the block returns here. *)
Definition try_block (service_type : string) (input_data : InputData)
  : M Env string :=
    (timestamp <- datetime_now_strftime "%Y-%m-%d %H:%M:%S" ;;
     assign_workflow_log
       {| log_service_type := service_type;
          log_timestamp := timestamp;
          log_experts_involved :=
            ["AIFoundationsExpert"; "PracticalAIExpert"; "LearningPathExpert"];
          log_steps := [];
          log_status := "in_progress";
          log_error := None |} ;;;
     final_guidance <-
       with_ (st st_container)
         (st (st_markdown "### 🧠 1단계: AI 기초 개념 분석") ;;;
          initial_explanation <-
            with_ (st (st_spinner "김민준 기초 전문가가 핵심 개념을 분석 중입니다..."))
              (initial_explanation <-
                 AIFoundationsExpert.explain service_type input_data ;;
               timestamp <- datetime_now_strftime "%H:%M:%S" ;;
               update_workflow_log
                 (append_step
                    {| expert := "AIFoundationsExpert";
                       action := "initial_explanation";
                       step_timestamp := timestamp |}) ;;;
               st (st_success "✅ 기초 개념 분석 완료!") ;;;
               sleep 1 ;;;
               ret initial_explanation) ;;
          st (st_markdown "### 💼 2단계: 실무 응용 분석") ;;;
          practical_enhanced_explanation <-
            with_ (st (st_spinner "박서연 실무 전문가가 실제 사례를 분석 중입니다..."))
              (practical_enhanced_explanation <-
                 PracticalAIExpert.enhance initial_explanation service_type
                   input_data ;;
               timestamp <- datetime_now_strftime "%H:%M:%S" ;;
               update_workflow_log
                 (append_step
                    {| expert := "PracticalAIExpert";
                       action := "practical_enhancement";
                       step_timestamp := timestamp |}) ;;;
               st (st_success "✅ 실무 사례 분석 완료!") ;;;
               sleep 1 ;;;
               ret practical_enhanced_explanation) ;;
          st (st_markdown "### 📚 3단계: 맞춤형 학습 경로 설계") ;;;
          with_ (st (st_spinner "이준호 학습 경로 전문가가 최종 학습 계획을 준비 중입니다..."))
            (final_guidance <-
               LearningPathExpert.finalize practical_enhanced_explanation
                 service_type input_data ;;
             timestamp <- datetime_now_strftime "%H:%M:%S" ;;
             update_workflow_log
               (append_step
                  {| expert := "LearningPathExpert";
                     action := "finalization";
                     step_timestamp := timestamp |}) ;;;
             st (st_success "✅ 학습 경로 설계 완료!") ;;;
             ret final_guidance)) ;;
     update_workflow_log (set_status "completed") ;;;
     append_workflow_log ;;;
     ret final_guidance).

(** The [except Exception as e] block (lines 140-145). *)
Definition except_block (e : string) : M Env string :=
  st (st_error ("❌ 오류가 발생했습니다: " ++ e)) ;;;
  update_workflow_log (set_status "error") ;;;
  update_workflow_log (set_error e) ;;;
  append_workflow_log ;;;
  ret apology.

(** [get_ai_education(self, service_type, input_data)]. *)
Definition get_ai_education (service_type : string) (input_data : InputData)
  : M Env string :=
  try_except (try_block service_type input_data) except_block.

End Team.

End AIEducationTeam.

(** ** Notions used in the statements *)

(** The five service types the [if]/[elif] chains name. *)
Definition known_service_types : list string :=
  ["AI 개념 이해"; "AI 도구 사용법"; "AI 학습 계획"; "AI 윤리 및 안전";
   "CS 학생 스펙 가이드"].

(** What a stage returns for what came back from the model: the text, the
    stage's fixed fallback for a missing or empty text, the stage's error
    text for an exception. *)
Definition stage_result (no_response : string) (error_text : string -> string)
  (r : Response) : string :=
  match r with
  | Generated text => text_or text no_response
  | ModelError message => error_text message
  end.

(** The state on entry of [get_ai_education]: [workflow_log] is unbound and
    nothing has been observed yet. *)
Definition entry {Env : Type} (e : Env) (logs : list RunLog) : State Env :=
  mkState e logs None [] [].

Definition prompts_sent {Env : Type} (s : State Env) : list string :=
  map fst (model_calls s).

(** Every Streamlit call returns. *)
Definition ui_returns {Env : Type} {world : Collaborators Env} : Prop :=
  forall (c : UICall) (e : Env), fst (streamlit c e) = None.

(** No Streamlit call raises a script-control exception. *)
Definition no_script_control {Env : Type} {world : Collaborators Env} : Prop :=
  forall (c : UICall) (e : Env) (signal : Signal),
    fst (streamlit c e) <> Some (script_control signal).

(** Every [st.error] call returns. *)
Definition error_display_returns {Env : Type} {world : Collaborators Env} : Prop :=
  forall (body : string) (e : Env), fst (streamlit (st_error body) e) = None.

(** [Q] holds of the outcome and the final state of [m] started in [s]. *)
Definition wp {Env A : Type} (m : M Env A) (s : State Env)
  (Q : Outcome A -> State Env -> Prop) : Prop :=
  Q (fst (m s)) (snd (m s)).

(** What holds of the log at each point of a run. *)
Definition log_point_ok (l : RunLog) : Prop :=
  length (log_steps l) <= 3 /\
  (log_status l = "completed" -> length (log_steps l) = 3 /\ log_error l = None).

(** What holds of the log a returning run has stored. *)
Definition log_end_ok (l : RunLog) : Prop :=
  (log_status l = "completed" \/ log_status l = "error") /\
  (log_status l = "error" <-> log_error l <> None) /\
  (length (log_steps l) < 3 -> log_status l = "error").

(** ** Concrete collaborators *)

(** A scripted world: the state counts the calls made so far, and the
    scripts say what the n-th call does. *)
Record Script : Type := mkScript {
  model_script : nat -> string -> Response;
  ui_script : nat -> UICall -> option Thrown
}.

Definition scripted (sc : Script) : Collaborators nat :=
  {| generate_content := fun prompt n => (model_script sc n prompt, S n);
     streamlit := fun c n => (ui_script sc n c, S n);
     strftime_now := fun fmt n => fmt;
     time_sleep := fun seconds n => n |}.

Definition double_quote : ascii := ascii_of_nat 34.
Definition newline : ascii := ascii_of_nat 10.

Fixpoint has_char (c : ascii) (s : string) : bool :=
  match s with
  | EmptyString => false
  | String c' rest => Ascii.eqb c c' || has_char c rest
  end.

Fixpoint escape (quote : ascii) (s : string) : string :=
  match s with
  | EmptyString => EmptyString
  | String c rest =>
      (if Ascii.eqb c quote || Ascii.eqb c "\"%char then String "\"%char (String c EmptyString)
       else if Ascii.eqb c newline then "\n"
       else String c EmptyString) ++ escape quote rest
  end.

(** [repr] of a text whose characters are printable or newlines: single
    quotes, unless the text has a single quote and no double quote. *)
Definition printable_repr (s : string) : string :=
  let quote :=
    if has_char "'"%char s && negb (has_char double_quote s)
    then double_quote else "'"%char in
  String quote (escape quote s ++ String quote EmptyString).

Definition printable_runtime : PyRuntime := {| py_repr := printable_repr |}.

(** The model answers every prompt with the text [X]; Streamlit works. *)
Definition always_X : Script :=
  {| model_script := fun _ _ => Generated (Some "X");
     ui_script := fun _ _ => None |}.

(** The model raises on every call; Streamlit works. *)
Definition quota_exceeded : Script :=
  {| model_script := fun _ _ => ModelError "quota exceeded";
     ui_script := fun _ _ => None |}.

(** The model answers; every Streamlit call raises. *)
Definition broken_display : Script :=
  {| model_script := fun _ _ => Generated (Some "X");
     ui_script := fun _ _ => Some (exception "display unavailable") |}.

(** The model answers; the first Streamlit call of the run,
    [st.container()], raises an [Exception]; the later calls work. *)
Definition failing_start : Script :=
  {| model_script := fun _ _ => Generated (Some "X");
     ui_script := fun n _ => if Nat.eqb n 0 then Some (exception "boom") else None |}.

(** The model raises on every call; the first Streamlit call of the run
    raises an [Exception]; the later calls work. *)
Definition quota_exceeded_failing_start : Script :=
  {| model_script := fun _ _ => ModelError "quota exceeded";
     ui_script := fun n _ => if Nat.eqb n 0 then Some (exception "boom") else None |}.

(** The model answers; the [st.success] after the first expert, call number
    4 of the run counting from 0, raises [RerunException]; every other
    Streamlit call works, and so does every [st.error]. *)
Definition rerun_requested : Script :=
  {| model_script := fun _ _ => Generated (Some "X");
     ui_script := fun n c =>
       match c with
       | st_error _ => None
       | _ => if Nat.eqb n 4 then Some (script_control rerun_script) else None
       end |}.

(** The model answers; the [st.success] after the third expert, call number
    12, raises [StopException]; every other Streamlit call works, and so
    does every [st.error]. *)
Definition stopped_late : Script :=
  {| model_script := fun _ _ => Generated (Some "X");
     ui_script := fun n c =>
       match c with
       | st_error _ => None
       | _ => if Nat.eqb n 12 then Some (script_control stop_script) else None
       end |}.

(** The model answers; Streamlit works until the third stage has been
    recorded and fails on the [st.success] after it, which is call number
    12 of the run counting from 0 (the model calls are numbers 3, 7 and
    11); [st.error] works. *)
Definition late_failure : Script :=
  {| model_script := fun _ _ => Generated (Some "X");
     ui_script := fun n c =>
       match c with
       | st_error _ => None
       | _ => if Nat.eqb n 12 then Some (exception "connection lost") else None
       end |}.

(** The keys of [input_data] that the templates of a service type read with
    [input_data.get]; the general templates read none. *)
Definition service_fields (service_type : string) : list string :=
  if String.eqb service_type "AI 개념 이해" then ["concept"]
  else if String.eqb service_type "AI 도구 사용법" then ["tool_name"; "purpose"]
  else if String.eqb service_type "AI 학습 계획" then ["current_level"; "goals"]
  else if String.eqb service_type "AI 윤리 및 안전" then ["area_of_interest"]
  else if String.eqb service_type "CS 학생 스펙 가이드" then
    ["current_situation"; "career_goals"]
  else [].

(** The expert and the action of the three steps, in the order the run
    records them. *)
Definition stage_tags : list (string * string) :=
  [("AIFoundationsExpert", "initial_explanation");
   ("PracticalAIExpert", "practical_enhancement");
   ("LearningPathExpert", "finalization")].

Definition step_tag (r : StageRecord) : string * string := (expert r, action r).

(** ** The page script [main] and the construction of the team *)

(** [str.strip()] of the interpreter. *)
Class PyText : Type := { py_strip : string -> string }.

(** Truth value of a [str]: the empty text is false. *)
Definition str_truthy (s : string) : bool :=
  match s with
  | EmptyString => false
  | String _ _ => true
  end.

(** An [AIEducationTeam] object: the key it was built with and its
    [workflow_logs].  Its model and its three experts are those of the
    world. *)
Record Team : Type := mkTeam {
  api_key : string;
  team_workflow_logs : list RunLog
}.

(** The Streamlit calls of the parts of [main] modelled here, with their
    arguments; the flag of [st.markdown] is [unsafe_allow_html]. *)
Inductive PageCall : Type :=
| page_warning (body : string)
| page_info (body : string)
| page_success (body : string)
| page_error (body : string)
| page_markdown (body : string) (unsafe_allow_html : bool)
| page_expander (label : string)
| page_json (log : RunLog)
| page_metric (label : string) (value : nat).

(** What [main] and [AIEducationTeam.__init__] call outside the program:
    the display calls, [st.button], [genai.configure(api_key=...)] and
    [GenerativeModel(name)].  A call returns or raises an exception whose
    [str] is given. *)
Class Platform (Env : Type) : Type := {
  page : PageCall -> Env -> option string * Env;
  st_button : string -> Env -> (bool + string) * Env;
  genai_configure : string -> Env -> option string * Env;
  generative_model : string -> Env -> option string * Env
}.

(** How a part of the script ends: it goes on, an [Exception] leaves it,
    or [st.stop()] or [st.rerun()] ends the script run. *)
Inductive Flow (A : Type) : Type :=
| Done (a : A)
| Failed (e : string)
| Stopped
| Rerun.
Arguments Done {A} a.
Arguments Failed {A} e.
Arguments Stopped {A}.
Arguments Rerun {A}.

(** The state of a session: the world, [st.session_state.workflow_logs]
    and [st.session_state.current_team].  Two fields only observe:
    [page_calls] lists the display calls made, [session_model_calls] the
    prompts sent to the model with what came back. *)
Record Session (Env : Type) : Type := mkSession {
  session_env : Env;
  session_workflow_logs : list RunLog;
  current_team : option Team;
  page_calls : list PageCall;
  session_model_calls : list (string * Response)
}.
Arguments mkSession {Env}.
Arguments session_env {Env}.
Arguments session_workflow_logs {Env}.
Arguments current_team {Env}.
Arguments page_calls {Env}.
Arguments session_model_calls {Env}.

(** How the script ends when a call raises [thrown] and nothing catches
    it. *)
Definition thrown_flow {A : Type} (thrown : Thrown) : Flow A :=
  match thrown with
  | exception message => Failed message
  | script_control stop_script => Stopped
  | script_control rerun_script => Rerun
  end.

Definition P (Env A : Type) : Type := Session Env -> Flow A * Session Env.

Definition page_ret {Env A : Type} (a : A) : P Env A :=
  fun ss => (Done a, ss).

Definition page_bind {Env A B : Type} (m : P Env A) (k : A -> P Env B)
  : P Env B :=
  fun ss =>
    match m ss with
    | (Done a, ss') => k a ss'
    | (Failed e, ss') => (Failed e, ss')
    | (Stopped, ss') => (Stopped, ss')
    | (Rerun, ss') => (Rerun, ss')
    end.

Declare Scope page_scope.
Delimit Scope page_scope with page.
Notation "x <- m ;; k" := (page_bind m (fun x => k)) : page_scope.
Notation "m ;;; k" := (page_bind m (fun _ => k)) : page_scope.

(** [try: body except Exception as e: handler] in the script.  No [try]
    block modelled here calls [st.stop] or [st.rerun]. *)
Definition page_try {Env A : Type} (body : P Env A) (handler : string -> P Env A)
  : P Env A :=
  fun ss =>
    match body ss with
    | (Failed e, ss') => handler e ss'
    | other => other
    end.

(** [with ctx: body] in the script. *)
Definition page_with {Env A : Type} (ctx : P Env unit) (body : P Env A)
  : P Env A :=
  page_bind ctx (fun _ => body).

(** [st.stop()] and [st.rerun()]. *)
Definition st_stop {Env A : Type} : P Env A := fun ss => (Stopped, ss).
Definition st_rerun {Env A : Type} : P Env A := fun ss => (Rerun, ss).

Section Script.
Context {Env : Type} {world : Collaborators Env} {platform : Platform Env}
  {runtime : PyRuntime} {text : PyText}.
Local Open Scope page_scope.

(** A display call. *)
Definition show (c : PageCall) : P Env unit :=
  fun ss =>
    let (r, e') := page c (session_env ss) in
    let ss' := mkSession e' (session_workflow_logs ss) (current_team ss)
                 (page_calls ss ++ [c]) (session_model_calls ss) in
    match r with
    | None => (Done tt, ss')
    | Some message => (Failed message, ss')
    end.

Definition button (label : string) : P Env bool :=
  fun ss =>
    let (r, e') := st_button label (session_env ss) in
    let ss' := mkSession e' (session_workflow_logs ss) (current_team ss)
                 (page_calls ss) (session_model_calls ss) in
    match r with
    | inl pressed => (Done pressed, ss')
    | inr message => (Failed message, ss')
    end.

(** A call of the model library that returns nothing. *)
Definition library_call (f : Env -> option string * Env) : P Env unit :=
  fun ss =>
    let (r, e') := f (session_env ss) in
    let ss' := mkSession e' (session_workflow_logs ss) (current_team ss)
                 (page_calls ss) (session_model_calls ss) in
    match r with
    | None => (Done tt, ss')
    | Some message => (Failed message, ss')
    end.

Definition read_current_team : P Env (option Team) :=
  fun ss => (Done (current_team ss), ss).

Definition set_current_team (team : Team) : P Env unit :=
  fun ss =>
    (Done tt,
     mkSession (session_env ss) (session_workflow_logs ss) (Some team)
       (page_calls ss) (session_model_calls ss)).

Definition read_session_logs : P Env (list RunLog) :=
  fun ss => (Done (session_workflow_logs ss), ss).

Definition set_session_logs (logs : list RunLog) : P Env unit :=
  fun ss =>
    (Done tt,
     mkSession (session_env ss) logs (current_team ss) (page_calls ss)
       (session_model_calls ss)).

(** [AIEducationTeam.__init__(self, api_key)] (lines 57-73): the library
    is configured, the model object is made, the experts share it, and the
    logs start empty. *)
Definition AIEducationTeam_init (key : string) : P Env Team :=
  library_call (genai_configure key) ;;;
  library_call (generative_model "gemini-1.5-flash-8b") ;;;
  page_ret (mkTeam key []).

(** [education_team.get_ai_education(service_type, input_data)] where
    [education_team] is the team object of the session: the run works on
    the team's [workflow_logs], which it changes in place. *)
Definition team_get_ai_education (service_type : string)
  (input_data : InputData) : P Env string :=
  fun ss =>
    match current_team ss with
    | None =>
        (Failed "'NoneType' object has no attribute 'get_ai_education'", ss)
    | Some team =>
        let (out, s') :=
          AIEducationTeam.get_ai_education service_type input_data
            (entry (session_env ss) (team_workflow_logs team)) in
        let ss' :=
          mkSession (env s') (session_workflow_logs ss)
            (Some (mkTeam (api_key team) (self_workflow_logs s')))
            (page_calls ss) (session_model_calls ss ++ model_calls s') in
        match out with
        | Returned result => (Done result, ss')
        | Raised thrown => (thrown_flow thrown, ss')
        end
    end.

(** [st.session_state.workflow_logs.extend(education_team.workflow_logs)]. *)
Definition extend_session_logs : P Env unit :=
  fun ss =>
    match current_team ss with
    | None => (Failed "'NoneType' object has no attribute 'workflow_logs'", ss)
    | Some team =>
        (Done tt,
         mkSession (session_env ss)
           (session_workflow_logs ss ++ team_workflow_logs team)
           (current_team ss) (page_calls ss) (session_model_calls ss))
    end.

(** [education_team.workflow_logs[-1]]. *)
Definition last_team_log : P Env RunLog :=
  fun ss =>
    match current_team ss with
    | None => (Failed "'NoneType' object has no attribute 'workflow_logs'", ss)
    | Some team =>
        match rev (team_workflow_logs team) with
        | l :: _ => (Done l, ss)
        | [] => (Failed "list index out of range", ss)
        end
    end.

(** The check of the key in the sidebar (lines 827-839), for the text
    [key] that [st.text_input] gave. *)
Definition api_key_gate (key : string) : P Env unit :=
  (if negb (str_truthy key) then
     show (page_warning "API 키를 입력해주세요.") ;;;
     show (page_info "💡 Google AI Studio (https://aistudio.google.com)에서 무료로 API 키를 발급받을 수 있습니다.") ;;;
     st_stop
   else page_ret tt) ;;;
  page_try
    (team <- read_current_team ;;
     if match team with
        | None => true
        | Some t => negb (String.eqb (api_key t) key)
        end
     then
       new_team <- AIEducationTeam_init key ;;
       set_current_team new_team ;;;
       show (page_success "✅ API 키가 유효합니다!")
     else page_ret tt)
    (fun e =>
       show (page_error ("❌ API 키 오류: " ++ e)) ;;;
       st_stop).


(** The block under the button of the service (lines 1002-1023): the texts
    typed are checked, the team of the session runs, its logs are added to
    the session's and the result is shown; otherwise a warning is shown. *)
Definition concept_request (concept : string)
  : P Env unit :=
  if str_truthy (py_strip concept) then
    let input_data := [("concept", py_strip concept)] in
    result <- team_get_ai_education "AI 개념 이해" input_data ;;
    extend_session_logs ;;;
    show (page_markdown "### 📊 전문가 팀 학습 가이드" false) ;;;
    show (page_markdown
            (("<div class=" ++ String double_quote EmptyString ++ "final-guidance"
              ++ String double_quote EmptyString ++ ">") ++ result ++ "</div>")
            true) ;;;
    page_with (show (page_expander "🔍 워크플로우 로그 보기 (개발자 모드)"))
      (log <- last_team_log ;;
       show (page_json log))
  else
    show (page_warning "AI 개념을 입력해주세요.").

(** The block under the button of the service (lines 1058-1079): the texts
    typed are checked, the team of the session runs, its logs are added to
    the session's and the result is shown; otherwise a warning is shown. *)
Definition tool_request (tool_name : string) (purpose : string)
  : P Env unit :=
  if str_truthy (py_strip tool_name) && str_truthy (py_strip purpose) then
    let input_data := [("tool_name", py_strip tool_name); ("purpose", py_strip purpose)] in
    result <- team_get_ai_education "AI 도구 사용법" input_data ;;
    extend_session_logs ;;;
    show (page_markdown "### 📊 전문가 팀 학습 가이드" false) ;;;
    show (page_markdown
            (("<div class=" ++ String double_quote EmptyString ++ "final-guidance"
              ++ String double_quote EmptyString ++ ">") ++ result ++ "</div>")
            true) ;;;
    page_with (show (page_expander "🔍 워크플로우 로그 보기 (개발자 모드)"))
      (log <- last_team_log ;;
       show (page_json log))
  else
    show (page_warning "도구 이름과 사용 목적을 모두 입력해주세요.").

(** The block under the button of the service (lines 1119-1140): the texts
    typed are checked, the team of the session runs, its logs are added to
    the session's and the result is shown; otherwise a warning is shown. *)
Definition learning_plan_request (current_level : string) (goals : string)
  : P Env unit :=
  if str_truthy (py_strip current_level) && str_truthy (py_strip goals) then
    let input_data := [("current_level", py_strip current_level); ("goals", py_strip goals)] in
    result <- team_get_ai_education "AI 학습 계획" input_data ;;
    extend_session_logs ;;;
    show (page_markdown "### 📊 전문가 팀 학습 가이드" false) ;;;
    show (page_markdown
            (("<div class=" ++ String double_quote EmptyString ++ "final-guidance"
              ++ String double_quote EmptyString ++ ">") ++ result ++ "</div>")
            true) ;;;
    page_with (show (page_expander "🔍 워크플로우 로그 보기 (개발자 모드)"))
      (log <- last_team_log ;;
       show (page_json log))
  else
    show (page_warning "현재 지식 수준과 학습 목표를 모두 입력해주세요.").

(** The block under the button of the service (lines 1181-1202): the texts
    typed are checked, the team of the session runs, its logs are added to
    the session's and the result is shown; otherwise a warning is shown. *)
Definition cs_spec_request (current_situation : string) (career_goals : string)
  : P Env unit :=
  if str_truthy (py_strip current_situation) && str_truthy (py_strip career_goals) then
    let input_data := [("current_situation", py_strip current_situation); ("career_goals", py_strip career_goals)] in
    result <- team_get_ai_education "CS 학생 스펙 가이드" input_data ;;
    extend_session_logs ;;;
    show (page_markdown "### 전문가 팀 스펙 가이드" false) ;;;
    show (page_markdown
            (("<div class=" ++ String double_quote EmptyString ++ "final-guidance"
              ++ String double_quote EmptyString ++ ">") ++ result ++ "</div>")
            true) ;;;
    page_with (show (page_expander "워크플로우 로그 보기 (개발자 모드)"))
      (log <- last_team_log ;;
       show (page_json log))
  else
    show (page_warning "현재 상황과 목표를 모두 입력해주세요.").

(** The block under the button of the service (lines 1229-1250): the texts
    typed are checked, the team of the session runs, its logs are added to
    the session's and the result is shown; otherwise a warning is shown. *)
Definition ethics_request (area_of_interest : string)
  : P Env unit :=
  if str_truthy (py_strip area_of_interest) then
    let input_data := [("area_of_interest", py_strip area_of_interest)] in
    result <- team_get_ai_education "AI 윤리 및 안전" input_data ;;
    extend_session_logs ;;;
    show (page_markdown "### 📊 전문가 팀 학습 가이드" false) ;;;
    show (page_markdown
            (("<div class=" ++ String double_quote EmptyString ++ "final-guidance"
              ++ String double_quote EmptyString ++ ">") ++ result ++ "</div>")
            true) ;;;
    page_with (show (page_expander "🔍 워크플로우 로그 보기 (개발자 모드)"))
      (log <- last_team_log ;;
       show (page_json log))
  else
    show (page_warning "관심 있는 AI 윤리/안전 영역을 입력해주세요.").

(** One press of a service's button with the texts typed in its fields. *)
Inductive Request : Type :=
| ConceptRequest (concept : string)
| ToolRequest (tool_name purpose : string)
| LearningPlanRequest (current_level goals : string)
| CsSpecRequest (current_situation career_goals : string)
| EthicsRequest (area_of_interest : string).

Definition handle (r : Request) : P Env unit :=
  match r with
  | ConceptRequest concept => concept_request concept
  | ToolRequest tool_name purpose => tool_request tool_name purpose
  | LearningPlanRequest current_level goals =>
      learning_plan_request current_level goals
  | CsSpecRequest current_situation career_goals =>
      cs_spec_request current_situation career_goals
  | EthicsRequest area_of_interest => ethics_request area_of_interest
  end.

(** Requests served one after the other in one session. *)
Fixpoint handle_all (requests : list Request) : P Env unit :=
  match requests with
  | [] => page_ret tt
  | r :: rest => handle r ;;; handle_all rest
  end.

(** The service type a request asks for and the texts typed, by field. *)
Definition request_service (r : Request) : string :=
  match r with
  | ConceptRequest _ => "AI 개념 이해"
  | ToolRequest _ _ => "AI 도구 사용법"
  | LearningPlanRequest _ _ => "AI 학습 계획"
  | CsSpecRequest _ _ => "CS 학생 스펙 가이드"
  | EthicsRequest _ => "AI 윤리 및 안전"
  end.

Definition request_texts (r : Request) : list (string * string) :=
  match r with
  | ConceptRequest concept => [("concept", concept)]
  | ToolRequest tool_name purpose =>
      [("tool_name", tool_name); ("purpose", purpose)]
  | LearningPlanRequest current_level goals =>
      [("current_level", current_level); ("goals", goals)]
  | CsSpecRequest current_situation career_goals =>
      [("current_situation", current_situation); ("career_goals", career_goals)]
  | EthicsRequest area_of_interest => [("area_of_interest", area_of_interest)]
  end.

(** Every text of the request has something left after [strip]. *)
Definition filled_in (r : Request) : bool :=
  forallb (fun kv => str_truthy (py_strip (snd kv))) (request_texts r).

(** The mapping a filled-in request passes to the team. *)
Definition request_input (r : Request) : InputData :=
  map (fun kv => (fst kv, py_strip (snd kv))) (request_texts r).

End Script.

(** [Q] holds of how the part [m] of the script ends and of the session it
    leaves, started in [ss]. *)
Definition page_wp {Env A : Type} (m : P Env A) (ss : Session Env)
  (Q : Flow A -> Session Env -> Prop) : Prop :=
  Q (fst (m ss)) (snd (m ss)).

(** Every display call returns. *)
Definition page_returns {Env : Type} {platform : Platform Env} : Prop :=
  forall (c : PageCall) (e : Env), fst (page c e) = None.

(** A scripted platform on the call counter. *)
Record PageScript : Type := mkPageScript {
  page_script : nat -> PageCall -> option string;
  button_script : nat -> string -> bool;
  library_script : nat -> string -> option string
}.

Definition scripted_platform (sc : PageScript) : Platform nat :=
  {| page := fun c n => (page_script sc n c, S n);
     st_button := fun label n => (inl (button_script sc n label), S n);
     genai_configure := fun key n => (library_script sc n key, S n);
     generative_model := fun name n => (library_script sc n name, S n) |}.

(** Everything outside works and no button is pressed. *)
Definition working_platform : PageScript :=
  {| page_script := fun _ _ => None;
     button_script := fun _ _ => false;
     library_script := fun _ _ => None |}.



(** [strip] of a text whose only white space is the space character. *)
Fixpoint lstrip_spaces (s : string) : string :=
  match s with
  | String " " rest => lstrip_spaces rest
  | _ => s
  end.

Fixpoint string_rev (s acc : string) : string :=
  match s with
  | EmptyString => acc
  | String c rest => string_rev rest (String c acc)
  end.

Definition strip_spaces (s : string) : string :=
  string_rev (lstrip_spaces (string_rev (lstrip_spaces s) EmptyString)) EmptyString.

Definition space_text : PyText := {| py_strip := strip_spaces |}.

(** A session with a team and nothing logged yet. *)
Definition fresh_session : Session nat :=
  mkSession 0 [] (Some (mkTeam "key-1" [])) [] [].

Definition three_requests : list Request :=
  [ConceptRequest "neural networks"; EthicsRequest "fairness";
   ToolRequest "ChatGPT" "report drafting"].


(** * Properties *)

(** ** Texts *)

Lemma append_assoc (a b c : string) : (a ++ b) ++ c = a ++ b ++ c.
Proof. induction a as [| ch a IH]; cbn; [reflexivity | now rewrite IH]. Qed.

Lemma append_empty_r (a : string) : a ++ EmptyString = a.
Proof. induction a as [| ch a IH]; cbn; [reflexivity | now rewrite IH]. Qed.

Lemma Contains_refl (t : string) : Contains t t.
Proof. exists EmptyString, EmptyString. cbn. now rewrite append_empty_r. Qed.

Lemma Contains_suffix (pre t : string) : Contains (pre ++ t) t.
Proof. exists pre, EmptyString. now rewrite append_empty_r. Qed.

Lemma Contains_append_l (a s t : string) : Contains s t -> Contains (a ++ s) t.
Proof.
  intros [p [q ->]]. exists (a ++ p), q. now rewrite append_assoc.
Qed.

Lemma Contains_append_r (a s t : string) : Contains s t -> Contains (s ++ a) t.
Proof.
  intros [p [q ->]]. exists p, (q ++ a). now rewrite !append_assoc.
Qed.

(** ** Rules for running the effects *)

Section Rules.
Context {Env : Type} {world : Collaborators Env} {runtime : PyRuntime}.

Lemma wp_ret {A : Type} (a : A) (s : State Env) Q :
  Q (Returned a) s -> wp (ret a) s Q.
Proof. exact (fun q => q). Qed.

Lemma wp_bind {A B : Type} (m : M Env A) (k : A -> M Env B) (s : State Env) Q :
  wp m s (fun o s1 =>
            match o with
            | Returned a => wp (k a) s1 Q
            | Raised e => Q (Raised e) s1
            end) ->
  wp (bind m k) s Q.
Proof.
  unfold wp, bind. destruct (m s) as [[a | e] s1]; cbn; auto.
Qed.

Lemma wp_try_except {A : Type} (body : M Env A) (handler : string -> M Env A)
  (s : State Env) Q :
  wp body s (fun o s1 =>
               match o with
               | Returned a => Q (Returned a) s1
               | Raised (exception e) => wp (handler e) s1 Q
               | Raised (script_control signal) =>
                   Q (Raised (script_control signal)) s1
               end) ->
  wp (try_except body handler) s Q.
Proof.
  unfold wp, try_except.
  destruct (body s) as [[a | [e | signal]] s1]; cbn; auto.
Qed.

Lemma wp_st (c : UICall) (e : Env) logs wl hist calls Q :
  (forall r e', streamlit c e = (r, e') ->
     match r with
     | None => Q (Returned tt) (mkState e' logs wl hist calls)
     | Some thrown => Q (Raised thrown) (mkState e' logs wl hist calls)
     end) ->
  wp (st c) (mkState e logs wl hist calls) Q.
Proof.
  intros HQ. unfold wp, st. cbn.
  specialize (HQ (fst (streamlit c e)) (snd (streamlit c e))).
  destruct (streamlit c e) as [[thrown |] e']; cbn in *; auto.
Qed.

Lemma wp_now (fmt : string) (e : Env) logs wl hist calls Q :
  Q (Returned (strftime_now fmt e)) (mkState e logs wl hist calls) ->
  wp (datetime_now_strftime fmt) (mkState e logs wl hist calls) Q.
Proof. exact (fun q => q). Qed.

Lemma wp_sleep (n : nat) (e : Env) logs wl hist calls Q :
  Q (Returned tt) (mkState (time_sleep n e) logs wl hist calls) ->
  wp (sleep n) (mkState e logs wl hist calls) Q.
Proof. exact (fun q => q). Qed.

Lemma wp_assign (l : RunLog) (e : Env) logs wl hist calls Q :
  Q (Returned tt) (mkState e logs (Some l) (hist ++ [l])%list calls) ->
  wp (assign_workflow_log l) (mkState e logs wl hist calls) Q.
Proof. exact (fun q => q). Qed.

Lemma wp_update (f : RunLog -> RunLog) (e : Env) logs l hist calls Q :
  Q (Returned tt) (mkState e logs (Some (f l)) (hist ++ [f l])%list calls) ->
  wp (update_workflow_log f) (mkState e logs (Some l) hist calls) Q.
Proof. exact (fun q => q). Qed.

Lemma wp_append (e : Env) logs l hist calls Q :
  Q (Returned tt) (mkState e (logs ++ [l])%list (Some l) hist calls) ->
  wp append_workflow_log (mkState e logs (Some l) hist calls) Q.
Proof. exact (fun q => q). Qed.

Lemma wp_model (prompt : string) (e : Env) logs wl hist calls Q :
  (forall r e', generate_content prompt e = (r, e') ->
     match r with
     | Generated text =>
         Q (Returned text) (mkState e' logs wl hist (calls ++ [(prompt, r)])%list)
     | ModelError message =>
         Q (Raised (exception message))
           (mkState e' logs wl hist (calls ++ [(prompt, r)])%list)
     end) ->
  wp (model_generate_content prompt) (mkState e logs wl hist calls) Q.
Proof.
  intros HQ. unfold wp, model_generate_content. cbn.
  specialize (HQ (fst (generate_content prompt e)) (snd (generate_content prompt e))).
  destruct (generate_content prompt e) as [[text | message] e']; cbn in *; auto.
Qed.

(** The three experts: one call of the model, and a text comes back
    whatever the model did. *)

Lemma wp_explain (service_type : string) (input_data : InputData)
  (e : Env) logs wl hist calls Q :
  (forall r e',
     generate_content (AIFoundationsExpert.composed_prompt service_type input_data) e
       = (r, e') ->
     Q (Returned (stage_result AIFoundationsExpert.no_response
                    AIFoundationsExpert.error_text r))
       (mkState e' logs wl hist
          (calls ++ [(AIFoundationsExpert.composed_prompt service_type input_data, r)])%list)) ->
  wp (AIFoundationsExpert.explain service_type input_data)
     (mkState e logs wl hist calls) Q.
Proof.
  intros HQ. unfold AIFoundationsExpert.explain.
  apply wp_try_except, wp_bind, wp_model. intros r e' Hr.
  specialize (HQ r e' Hr). destruct r; exact HQ.
Qed.

Lemma wp_enhance (previous_explanation service_type : string)
  (input_data : InputData) (e : Env) logs wl hist calls Q :
  (forall r e',
     generate_content
       (PracticalAIExpert.composed_prompt previous_explanation service_type input_data) e
       = (r, e') ->
     Q (Returned (stage_result PracticalAIExpert.no_response
                    PracticalAIExpert.error_text r))
       (mkState e' logs wl hist
          (calls ++ [(PracticalAIExpert.composed_prompt previous_explanation
                        service_type input_data, r)])%list)) ->
  wp (PracticalAIExpert.enhance previous_explanation service_type input_data)
     (mkState e logs wl hist calls) Q.
Proof.
  intros HQ. unfold PracticalAIExpert.enhance.
  apply wp_try_except, wp_bind, wp_model. intros r e' Hr.
  specialize (HQ r e' Hr). destruct r; exact HQ.
Qed.

Lemma wp_finalize (previous_explanation service_type : string)
  (input_data : InputData) (e : Env) logs wl hist calls Q :
  (forall r e',
     generate_content
       (LearningPathExpert.composed_prompt previous_explanation service_type input_data) e
       = (r, e') ->
     Q (Returned (stage_result LearningPathExpert.no_response
                    LearningPathExpert.error_text r))
       (mkState e' logs wl hist
          (calls ++ [(LearningPathExpert.composed_prompt previous_explanation
                        service_type input_data, r)])%list)) ->
  wp (LearningPathExpert.finalize previous_explanation service_type input_data)
     (mkState e logs wl hist calls) Q.
Proof.
  intros HQ. unfold LearningPathExpert.finalize.
  apply wp_try_except, wp_bind, wp_model. intros r e' Hr.
  specialize (HQ r e' Hr). destruct r; exact HQ.
Qed.

End Rules.

(** One statement of the program at a time.  A Streamlit call leaves two
    goals, the call returning and the call raising; an expert leaves one. *)
Ltac wp_step :=
  lazymatch goal with
  | |- wp (AIEducationTeam.get_ai_education _ _) _ _ =>
      unfold AIEducationTeam.get_ai_education; apply wp_try_except
  | |- wp (AIEducationTeam.try_block _ _) _ _ =>
      unfold AIEducationTeam.try_block
  | |- wp (AIEducationTeam.except_block _) _ _ =>
      unfold AIEducationTeam.except_block
  | |- wp (bind _ _) _ _ => apply wp_bind
  | |- wp (with_ _ _) _ _ => unfold with_ at 1; apply wp_bind
  | |- wp (try_except _ _) _ _ => apply wp_try_except
  | |- wp (ret _) _ _ => apply wp_ret
  | |- wp (st _) _ _ =>
      let r := fresh "ui" in let e := fresh "e" in let E := fresh "Hui" in
      apply wp_st; intros r e E; destruct r as [[? | ?] |]
  | |- wp (datetime_now_strftime _) _ _ => apply wp_now
  | |- wp (sleep _) _ _ => apply wp_sleep
  | |- wp (assign_workflow_log _) _ _ => apply wp_assign
  | |- wp (update_workflow_log _) _ _ => apply wp_update
  | |- wp append_workflow_log _ _ => apply wp_append
  | |- wp (AIFoundationsExpert.explain _ _) _ _ =>
      let r := fresh "r" in let e := fresh "e" in let E := fresh "Hmodel" in
      apply wp_explain; intros r e E
  | |- wp (PracticalAIExpert.enhance _ _ _) _ _ =>
      let r := fresh "r" in let e := fresh "e" in let E := fresh "Hmodel" in
      apply wp_enhance; intros r e E
  | |- wp (LearningPathExpert.finalize _ _ _) _ _ =>
      let r := fresh "r" in let e := fresh "e" in let E := fresh "Hmodel" in
      apply wp_finalize; intros r e E
  end;
  cbv beta iota.

Ltac wp_run := unfold entry; repeat wp_step.

(** ** The prompts *)

Lemma join_contains (sep x : string) (parts : list string) :
  In x parts -> Contains (join sep parts) x.
Proof.
  induction parts as [| p rest IH]; intros Hin; [destruct Hin |].
  destruct Hin as [-> | Hin].
  - destruct rest as [| q rest]; cbn [join].
    + apply Contains_refl.
    + exists EmptyString, (sep ++ join sep (q :: rest)). reflexivity.
  - destruct rest as [| q rest]; [destruct Hin |].
    change (join sep (p :: q :: rest)) with (p ++ sep ++ join sep (q :: rest)).
    do 2 apply Contains_append_l. apply IH, Hin.
Qed.

Lemma unknown_service_type (service_type : string) :
  ~ In service_type known_service_types ->
  String.eqb service_type "AI 개념 이해" = false /\
  String.eqb service_type "AI 도구 사용법" = false /\
  String.eqb service_type "AI 학습 계획" = false /\
  String.eqb service_type "AI 윤리 및 안전" = false /\
  String.eqb service_type "CS 학생 스펙 가이드" = false.
Proof.
  intros Hnot. repeat split; apply String.eqb_neq; intros ->; apply Hnot;
    unfold known_service_types; cbn [In]; tauto.
Qed.

Section Prompts.
Context {runtime : PyRuntime}.

Lemma foundations_general (service_type : string) (input_data : InputData) :
  ~ In service_type known_service_types ->
  AIFoundationsExpert.select_prompt service_type input_data =
  AIFoundationsExpert._create_general_foundations_prompt input_data service_type.
Proof.
  intros Hnot. destruct (unknown_service_type _ Hnot) as (E1 & E2 & E3 & E4 & E5).
  unfold AIFoundationsExpert.select_prompt. now rewrite E1, E2, E3, E4, E5.
Qed.

Lemma practical_general (previous_explanation service_type : string)
  (input_data : InputData) :
  ~ In service_type known_service_types ->
  PracticalAIExpert.select_prompt previous_explanation service_type input_data =
  PracticalAIExpert._create_general_practical_prompt previous_explanation
    input_data service_type.
Proof.
  intros Hnot. destruct (unknown_service_type _ Hnot) as (E1 & E2 & E3 & E4 & E5).
  unfold PracticalAIExpert.select_prompt. now rewrite E1, E2, E3, E4, E5.
Qed.

Lemma learning_general (previous_explanation service_type : string)
  (input_data : InputData) :
  ~ In service_type known_service_types ->
  LearningPathExpert.select_prompt previous_explanation service_type input_data =
  LearningPathExpert._create_general_learning_prompt previous_explanation
    input_data service_type.
Proof.
  intros Hnot. destruct (unknown_service_type _ Hnot) as (E1 & E2 & E3 & E4 & E5).
  unfold LearningPathExpert.select_prompt. now rewrite E1, E2, E3, E4, E5.
Qed.

Lemma practical_prompt_threads (previous_explanation prompt : string) :
  Contains (PracticalAIExpert.persona_prompt previous_explanation prompt)
           previous_explanation.
Proof.
  unfold PracticalAIExpert.persona_prompt.
  do 5 apply Contains_append_l. exists EmptyString. eexists. reflexivity.
Qed.

Lemma learning_prompt_threads (previous_explanation prompt : string) :
  Contains (LearningPathExpert.persona_prompt previous_explanation prompt)
           previous_explanation.
Proof.
  unfold LearningPathExpert.persona_prompt.
  do 5 apply Contains_append_l. exists EmptyString. eexists. reflexivity.
Qed.

Lemma py_str_dict_item (input_data : InputData) (k v : string) :
  In (k, v) input_data ->
  Contains (py_str_dict input_data) (py_repr k ++ ": " ++ py_repr v).
Proof.
  intros Hin. unfold py_str_dict. apply Contains_append_l, Contains_append_r.
  apply join_contains.
  apply (in_map (fun kv => py_repr (fst kv) ++ ": " ++ py_repr (snd kv)) _ _ Hin).
Qed.

(** C10.  For a service type outside the five known ones, each of the three
    experts selects its general template, and that template contains
    [str(input_data)], the text of the whole mapping: every item shows in it
    as [repr(key): repr(value)], it is never the empty text (the empty
    mapping gives the two braces), and the template depends on the mapping
    through that text alone, so no field is looked up by name. *)
Theorem general_prompt_embeds_whole_mapping
  (service_type previous_explanation : string) (input_data : InputData) :
  ~ In service_type known_service_types ->
  (AIFoundationsExpert.select_prompt service_type input_data =
     AIFoundationsExpert._create_general_foundations_prompt input_data service_type /\
   PracticalAIExpert.select_prompt previous_explanation service_type input_data =
     PracticalAIExpert._create_general_practical_prompt previous_explanation
       input_data service_type /\
   LearningPathExpert.select_prompt previous_explanation service_type input_data =
     LearningPathExpert._create_general_learning_prompt previous_explanation
       input_data service_type) /\
  (Contains (AIFoundationsExpert.select_prompt service_type input_data)
     (py_str_dict input_data) /\
   Contains (PracticalAIExpert.select_prompt previous_explanation service_type input_data)
     (py_str_dict input_data) /\
   Contains (LearningPathExpert.select_prompt previous_explanation service_type input_data)
     (py_str_dict input_data)) /\
  (forall k v : string, In (k, v) input_data ->
     Contains (py_str_dict input_data) (py_repr k ++ ": " ++ py_repr v)) /\
  py_str_dict input_data <> EmptyString /\
  py_str_dict [] = "{}" /\
  (forall other : InputData,
     py_str_dict other = py_str_dict input_data ->
     AIFoundationsExpert.select_prompt service_type other =
       AIFoundationsExpert.select_prompt service_type input_data /\
     PracticalAIExpert.select_prompt previous_explanation service_type other =
       PracticalAIExpert.select_prompt previous_explanation service_type input_data /\
     LearningPathExpert.select_prompt previous_explanation service_type other =
       LearningPathExpert.select_prompt previous_explanation service_type input_data).
Proof.
  intros Hnot.
  split; [| split; [| split; [| split; [| split]]]].
  - repeat split.
    + now apply foundations_general.
    + now apply practical_general.
    + now apply learning_general.
  - rewrite foundations_general, practical_general, learning_general by assumption.
    unfold AIFoundationsExpert._create_general_foundations_prompt,
      PracticalAIExpert._create_general_practical_prompt,
      LearningPathExpert._create_general_learning_prompt.
    repeat split; do 3 apply Contains_append_l;
      (exists EmptyString; eexists; reflexivity).
  - intros k v. apply py_str_dict_item.
  - unfold py_str_dict. cbn. discriminate.
  - reflexivity.
  - intros other Hsame.
    rewrite !foundations_general, !practical_general, !learning_general by assumption.
    unfold AIFoundationsExpert._create_general_foundations_prompt,
      PracticalAIExpert._create_general_practical_prompt,
      LearningPathExpert._create_general_learning_prompt.
    now rewrite Hsame.
Qed.

End Prompts.

Lemma general_prompt_embeds_whole_mapping_unknown :
  ~ In "Unknown" known_service_types /\
  Contains
    (AIFoundationsExpert.select_prompt (runtime := printable_runtime) "Unknown"
       [("topic", "transformers")])
    "{'topic': 'transformers'}".
Proof.
  assert (Hnot : ~ In "Unknown" known_service_types).
  { unfold known_service_types. cbn [In]. intros H.
    repeat (destruct H as [H | H]; [discriminate H |]). exact H. }
  split; [exact Hnot |].
  exact (proj1 (proj1 (proj2 (general_prompt_embeds_whole_mapping
    (runtime := printable_runtime) "Unknown" EmptyString
    [("topic", "transformers")] Hnot)))).
Defined.

(** ** The experts *)

Section Experts.
Context {Env : Type} {world : Collaborators Env} {runtime : PyRuntime}.

Lemma explain_returns (service_type : string) (input_data : InputData)
  (s : State Env) :
  AIFoundationsExpert.explain service_type input_data s =
  (Returned
     (stage_result AIFoundationsExpert.no_response AIFoundationsExpert.error_text
        (fst (generate_content
                (AIFoundationsExpert.composed_prompt service_type input_data) (env s)))),
   mkState
     (snd (generate_content
             (AIFoundationsExpert.composed_prompt service_type input_data) (env s)))
     (self_workflow_logs s) (workflow_log s) (log_history s)
     (model_calls s ++
        [(AIFoundationsExpert.composed_prompt service_type input_data,
          fst (generate_content
                 (AIFoundationsExpert.composed_prompt service_type input_data)
                 (env s)))])%list).
Proof.
  unfold AIFoundationsExpert.explain, try_except, bind, model_generate_content,
    AIFoundationsExpert.composed_prompt.
  destruct (generate_content _ (env s)) as [[text | message] e']; reflexivity.
Qed.

Lemma enhance_returns (previous_explanation service_type : string)
  (input_data : InputData) (s : State Env) :
  PracticalAIExpert.enhance previous_explanation service_type input_data s =
  (Returned
     (stage_result PracticalAIExpert.no_response PracticalAIExpert.error_text
        (fst (generate_content
                (PracticalAIExpert.composed_prompt previous_explanation
                   service_type input_data) (env s)))),
   mkState
     (snd (generate_content
             (PracticalAIExpert.composed_prompt previous_explanation
                service_type input_data) (env s)))
     (self_workflow_logs s) (workflow_log s) (log_history s)
     (model_calls s ++
        [(PracticalAIExpert.composed_prompt previous_explanation service_type
            input_data,
          fst (generate_content
                 (PracticalAIExpert.composed_prompt previous_explanation
                    service_type input_data) (env s)))])%list).
Proof.
  unfold PracticalAIExpert.enhance, try_except, bind, model_generate_content,
    PracticalAIExpert.composed_prompt.
  destruct (generate_content _ (env s)) as [[text | message] e']; reflexivity.
Qed.

Lemma finalize_returns (previous_explanation service_type : string)
  (input_data : InputData) (s : State Env) :
  LearningPathExpert.finalize previous_explanation service_type input_data s =
  (Returned
     (stage_result LearningPathExpert.no_response LearningPathExpert.error_text
        (fst (generate_content
                (LearningPathExpert.composed_prompt previous_explanation
                   service_type input_data) (env s)))),
   mkState
     (snd (generate_content
             (LearningPathExpert.composed_prompt previous_explanation
                service_type input_data) (env s)))
     (self_workflow_logs s) (workflow_log s) (log_history s)
     (model_calls s ++
        [(LearningPathExpert.composed_prompt previous_explanation service_type
            input_data,
          fst (generate_content
                 (LearningPathExpert.composed_prompt previous_explanation
                    service_type input_data) (env s)))])%list).
Proof.
  unfold LearningPathExpert.finalize, try_except, bind, model_generate_content,
    LearningPathExpert.composed_prompt.
  destruct (generate_content _ (env s)) as [[text | message] e']; reflexivity.
Qed.

(** C3.  [explain], [enhance] and [finalize] never raise: in every state and
    for every argument each one returns a text, fixed by what the model did
    with the composed prompt.  A non-empty generated text is returned as it
    is; a missing or empty text gives the expert's fixed fallback; an
    exception of the model gives the expert's error text, which ends with
    the exception's message. *)
Theorem experts_always_return_text
  (previous_explanation service_type : string) (input_data : InputData)
  (s : State Env) :
  fst (AIFoundationsExpert.explain service_type input_data s) =
    Returned
      match fst (generate_content
                   (AIFoundationsExpert.composed_prompt service_type input_data)
                   (env s)) with
      | Generated (Some (String c t)) => String c t
      | Generated (Some EmptyString) | Generated None =>
          "응답을 생성할 수 없습니다. 다시 시도해주세요."
      | ModelError message => "기초 개념 설명 중 오류가 발생했습니다: " ++ message
      end /\
  fst (PracticalAIExpert.enhance previous_explanation service_type input_data s) =
    Returned
      match fst (generate_content
                   (PracticalAIExpert.composed_prompt previous_explanation
                      service_type input_data) (env s)) with
      | Generated (Some (String c t)) => String c t
      | Generated (Some EmptyString) | Generated None =>
          "실무 응용 설명을 생성할 수 없습니다. 다시 시도해주세요."
      | ModelError message => "실무 응용 설명 중 오류가 발생했습니다: " ++ message
      end /\
  fst (LearningPathExpert.finalize previous_explanation service_type input_data s) =
    Returned
      match fst (generate_content
                   (LearningPathExpert.composed_prompt previous_explanation
                      service_type input_data) (env s)) with
      | Generated (Some (String c t)) => String c t
      | Generated (Some EmptyString) | Generated None =>
          "학습 경로를 생성할 수 없습니다. 다시 시도해주세요."
      | ModelError message => "학습 경로 생성 중 오류가 발생했습니다: " ++ message
      end.
Proof.
  rewrite explain_returns, enhance_returns, finalize_returns.
  cbn [fst]. unfold stage_result.
  repeat split;
    match goal with
    | |- context [generate_content ?p ?e] =>
        destruct (fst (generate_content p e)) as [[[| c t] |] | message]
    end; reflexivity.
Qed.

End Experts.

(** C8.  Building a prompt has no hidden input.  In any two worlds, with
    their own model, front end and clock and in any state, an expert called
    with the same arguments sends the model the same prompt, character for
    character: the one text that the arguments determine. *)
Theorem prompt_building_is_deterministic
  {Env1 Env2 : Type} (world1 : Collaborators Env1) (world2 : Collaborators Env2)
  {runtime : PyRuntime} (e1 : Env1) (e2 : Env2) (logs1 logs2 : list RunLog)
  (previous_explanation service_type : string) (input_data : InputData) :
  (prompts_sent
     (snd (AIFoundationsExpert.explain (world := world1) service_type input_data
             (entry e1 logs1))) =
   [AIFoundationsExpert.composed_prompt service_type input_data] /\
   prompts_sent
     (snd (AIFoundationsExpert.explain (world := world2) service_type input_data
             (entry e2 logs2))) =
   [AIFoundationsExpert.composed_prompt service_type input_data]) /\
  (prompts_sent
     (snd (PracticalAIExpert.enhance (world := world1) previous_explanation
             service_type input_data (entry e1 logs1))) =
   [PracticalAIExpert.composed_prompt previous_explanation service_type input_data] /\
   prompts_sent
     (snd (PracticalAIExpert.enhance (world := world2) previous_explanation
             service_type input_data (entry e2 logs2))) =
   [PracticalAIExpert.composed_prompt previous_explanation service_type input_data]) /\
  (prompts_sent
     (snd (LearningPathExpert.finalize (world := world1) previous_explanation
             service_type input_data (entry e1 logs1))) =
   [LearningPathExpert.composed_prompt previous_explanation service_type input_data] /\
   prompts_sent
     (snd (LearningPathExpert.finalize (world := world2) previous_explanation
             service_type input_data (entry e2 logs2))) =
   [LearningPathExpert.composed_prompt previous_explanation service_type input_data]).
Proof.
  rewrite !explain_returns, !enhance_returns, !finalize_returns.
  repeat split.
Qed.

(** ** The pipeline *)

Ltac ui_contradiction :=
  match goal with
  | Hret : error_display_returns, Hui : streamlit (st_error ?b) ?e = (Some _, _) |- _ =>
      exfalso; generalize (Hret b e); rewrite Hui; discriminate
  | Hret : ui_returns, Hui : streamlit ?c ?e = (Some _, _) |- _ =>
      exfalso; generalize (Hret c e); rewrite Hui; discriminate
  end.

Ltac control_contradiction :=
  match goal with
  | Hnone : no_script_control,
    Hui : streamlit ?c ?e = (Some (script_control ?signal), _) |- _ =>
      exfalso; apply (Hnone c e signal); rewrite Hui; reflexivity
  end.

Ltac state_facts :=
  cbn [log_history self_workflow_logs workflow_log model_calls env].

Ltac log_facts :=
  cbn [log_history self_workflow_logs workflow_log model_calls env app
       append_step set_status set_error
       log_steps log_status log_error length].

Section Pipeline.
Context {Env : Type} {world : Collaborators Env} {runtime : PyRuntime}.

(** C4, as the code has it.  At every point of a run the log has at most
    three steps, and a log marked completed has exactly three steps and no
    error message.  When the run returns, it has stored the log as the last
    entry of [self.workflow_logs], in the last state the log took: marked
    completed or error, marked error exactly when the error message is set,
    and marked error whenever it has fewer than three steps.  When the run
    raises, nothing has been stored. *)
Theorem run_log_invariant (e : Env) (logs : list RunLog)
  (service_type : string) (input_data : InputData) :
  Forall log_point_ok
    (log_history
       (snd (AIEducationTeam.get_ai_education service_type input_data
               (entry e logs)))) /\
  match fst (AIEducationTeam.get_ai_education service_type input_data
               (entry e logs)) with
  | Returned _ =>
      exists (l : RunLog) (earlier : list RunLog),
        self_workflow_logs
          (snd (AIEducationTeam.get_ai_education service_type input_data
                  (entry e logs))) = (logs ++ [l])%list /\
        log_history
          (snd (AIEducationTeam.get_ai_education service_type input_data
                  (entry e logs))) = (earlier ++ [l])%list /\
        log_end_ok l
  | Raised _ =>
      self_workflow_logs
        (snd (AIEducationTeam.get_ai_education service_type input_data
                (entry e logs))) = logs
  end.
Proof.
  change (wp (AIEducationTeam.get_ai_education service_type input_data)
            (entry e logs)
            (fun out s' =>
               Forall log_point_ok (log_history s') /\
               match out with
               | Returned _ =>
                   exists (l : RunLog) (earlier : list RunLog),
                     self_workflow_logs s' = (logs ++ [l])%list /\
                     log_history s' = (earlier ++ [l])%list /\
                     log_end_ok l
               | Raised _ => self_workflow_logs s' = logs
               end)).
  wp_run; state_facts.
  all: split;
    [ log_facts; repeat constructor; log_facts; try lia; try discriminate
    | try reflexivity ].
  all: eexists; eexists; split; [reflexivity |]; split; [reflexivity |].
  all: unfold log_end_ok; log_facts;
    repeat split; auto; try discriminate; try lia; try congruence.
Qed.

Ltac model_answer Hmodel_always :=
  repeat match goal with
  | Hm : generate_content ?p ?e = (?r, _) |- _ =>
      is_var r;
      let H := fresh in
      pose proof (Hmodel_always p e) as H; rewrite Hm in H; cbn [fst] in H;
      subst r
  end.

(** C1, as the code has it.  A run calls the model at most three times, and
    the calls it makes are, in this order, [explain]'s prompt, [enhance]'s
    prompt for the text [explain] returned, and [finalize]'s prompt for the
    text [enhance] returned; the prompt of [enhance] contains the text
    [explain] returned, and the prompt of [finalize] contains the text
    [enhance] returned.  When the Streamlit calls return, all three calls
    are made, the three steps name the three experts in that order, and the
    run returns the text [finalize] returned; the same holds of every run
    whose log ends completed. *)
Theorem stages_run_in_order_and_thread (e : Env) (logs : list RunLog)
  (service_type : string) (input_data : InputData) :
  exists r1 r2 r3 : Response,
    let t1 := stage_result AIFoundationsExpert.no_response
                AIFoundationsExpert.error_text r1 in
    let t2 := stage_result PracticalAIExpert.no_response
                PracticalAIExpert.error_text r2 in
    let t3 := stage_result LearningPathExpert.no_response
                LearningPathExpert.error_text r3 in
    let chain :=
      [(AIFoundationsExpert.composed_prompt service_type input_data, r1);
       (PracticalAIExpert.composed_prompt t1 service_type input_data, r2);
       (LearningPathExpert.composed_prompt t2 service_type input_data, r3)] in
    let run := AIEducationTeam.get_ai_education service_type input_data
                 (entry e logs) in
    model_calls (snd run) = firstn (length (model_calls (snd run))) chain /\
    Contains (PracticalAIExpert.composed_prompt t1 service_type input_data) t1 /\
    Contains (LearningPathExpert.composed_prompt t2 service_type input_data) t2 /\
    (ui_returns ->
     model_calls (snd run) = chain /\
     fst run = Returned t3 /\
     exists l : RunLog,
       workflow_log (snd run) = Some l /\
       map expert (log_steps l) =
         ["AIFoundationsExpert"; "PracticalAIExpert"; "LearningPathExpert"]) /\
    (forall l : RunLog,
       workflow_log (snd run) = Some l -> log_status l = "completed" ->
       model_calls (snd run) = chain /\
       map expert (log_steps l) =
         ["AIFoundationsExpert"; "PracticalAIExpert"; "LearningPathExpert"] /\
       fst run = Returned t3).
Proof.
  change (wp (AIEducationTeam.get_ai_education service_type input_data)
            (entry e logs)
            (fun out s' =>
               exists r1 r2 r3 : Response,
                 let t1 := stage_result AIFoundationsExpert.no_response
                             AIFoundationsExpert.error_text r1 in
                 let t2 := stage_result PracticalAIExpert.no_response
                             PracticalAIExpert.error_text r2 in
                 let t3 := stage_result LearningPathExpert.no_response
                             LearningPathExpert.error_text r3 in
                 let chain :=
                   [(AIFoundationsExpert.composed_prompt service_type input_data, r1);
                    (PracticalAIExpert.composed_prompt t1 service_type input_data, r2);
                    (LearningPathExpert.composed_prompt t2 service_type input_data, r3)] in
                 model_calls s' = firstn (length (model_calls s')) chain /\
                 Contains (PracticalAIExpert.composed_prompt t1 service_type input_data) t1 /\
                 Contains (LearningPathExpert.composed_prompt t2 service_type input_data) t2 /\
                 (ui_returns ->
                  model_calls s' = chain /\
                  out = Returned t3 /\
                  exists l : RunLog,
                    workflow_log s' = Some l /\
                    map expert (log_steps l) =
                      ["AIFoundationsExpert"; "PracticalAIExpert";
                       "LearningPathExpert"]) /\
                 (forall l : RunLog,
                    workflow_log s' = Some l -> log_status l = "completed" ->
                    model_calls s' = chain /\
                    map expert (log_steps l) =
                      ["AIFoundationsExpert"; "PracticalAIExpert";
                       "LearningPathExpert"] /\
                    out = Returned t3))).
  wp_run; state_facts.
  all: do 3 eexists; cbv zeta; cbn [app length firstn].
  all: split; [reflexivity |].
  all: split; [apply practical_prompt_threads |].
  all: split; [apply learning_prompt_threads |].
  all: split;
    [ intros Hnominal; try ui_contradiction
    | intros l Hl Hstatus; injection Hl as <-;
      cbn [append_step set_status set_error log_status log_steps log_error app
           map expert] in Hstatus |- *;
      try discriminate Hstatus ].
  all: repeat split.
  all: try (eexists; split; reflexivity).
  Unshelve. all: exact (Generated None).
Qed.

(** The first prompt of a run, when one is sent, is [explain]'s prompt for
    the service type and the input. *)
Lemma first_prompt_of_run (e : Env) (logs : list RunLog)
  (service_type : string) (input_data : InputData) (p : string) :
  hd_error
    (prompts_sent
       (snd (AIEducationTeam.get_ai_education service_type input_data
               (entry e logs)))) = Some p ->
  p = AIFoundationsExpert.composed_prompt service_type input_data.
Proof.
  change (wp (AIEducationTeam.get_ai_education service_type input_data)
            (entry e logs)
            (fun _ s' =>
               hd_error (prompts_sent s') = Some p ->
               p = AIFoundationsExpert.composed_prompt service_type input_data)).
  wp_run; unfold prompts_sent; state_facts; cbn [app map hd_error fst].
  all: intros Hp; first [discriminate Hp | now injection Hp as <-].
Qed.

(** C5.  When the model raises [quota exceeded] on every call and the
    Streamlit calls return, the run returns the error text of [finalize]
    for that message, which contains the message, and stores a log that is
    marked completed, has three steps and no error message. *)
Theorem quota_exceeded_run_completes (e : Env) (logs : list RunLog)
  (service_type : string) (input_data : InputData) :
  (forall (prompt : string) (e' : Env),
     fst (generate_content prompt e') = ModelError "quota exceeded") ->
  ui_returns ->
  fst (AIEducationTeam.get_ai_education service_type input_data (entry e logs)) =
    Returned "학습 경로 생성 중 오류가 발생했습니다: quota exceeded" /\
  Contains (LearningPathExpert.error_text "quota exceeded") "quota exceeded" /\
  exists l : RunLog,
    self_workflow_logs
      (snd (AIEducationTeam.get_ai_education service_type input_data
              (entry e logs))) = (logs ++ [l])%list /\
    log_status l = "completed" /\
    length (log_steps l) = 3 /\
    log_error l = None.
Proof.
  intros Hquota Hui.
  split; [| split; [apply Contains_suffix |]]; revert Hquota Hui.
  - change (wp (AIEducationTeam.get_ai_education service_type input_data)
              (entry e logs)
              (fun out _ =>
                 (forall (prompt : string) (e' : Env),
                    fst (generate_content prompt e') = ModelError "quota exceeded") ->
                 ui_returns ->
                 out = Returned "학습 경로 생성 중 오류가 발생했습니다: quota exceeded")).
    wp_run; intros Hquota Hnominal; try ui_contradiction.
    model_answer Hquota. reflexivity.
  - change (wp (AIEducationTeam.get_ai_education service_type input_data)
              (entry e logs)
              (fun _ s' =>
                 (forall (prompt : string) (e' : Env),
                    fst (generate_content prompt e') = ModelError "quota exceeded") ->
                 ui_returns ->
                 exists l : RunLog,
                   self_workflow_logs s' = (logs ++ [l])%list /\
                   log_status l = "completed" /\
                   length (log_steps l) = 3 /\
                   log_error l = None)).
    wp_run; intros Hquota Hnominal; try ui_contradiction.
    state_facts. eexists. split; [reflexivity |]. repeat split.
Qed.

(** C6.  For a service type outside the five known ones, when the Streamlit
    calls return: the three calls of the model carry the three general
    templates inside the experts' personas, the run returns the text of
    [finalize], and the log it stores is marked completed with three steps. *)
Theorem unknown_service_run_completes (e : Env) (logs : list RunLog)
  (service_type : string) (input_data : InputData) :
  ~ In service_type known_service_types ->
  ui_returns ->
  exists r1 r2 r3 : Response,
    let t1 := stage_result AIFoundationsExpert.no_response
                AIFoundationsExpert.error_text r1 in
    let t2 := stage_result PracticalAIExpert.no_response
                PracticalAIExpert.error_text r2 in
    let t3 := stage_result LearningPathExpert.no_response
                LearningPathExpert.error_text r3 in
    let run := AIEducationTeam.get_ai_education service_type input_data
                 (entry e logs) in
    model_calls (snd run) =
      [(AIFoundationsExpert.persona_prompt
          (AIFoundationsExpert._create_general_foundations_prompt input_data
             service_type), r1);
       (PracticalAIExpert.persona_prompt t1
          (PracticalAIExpert._create_general_practical_prompt t1 input_data
             service_type), r2);
       (LearningPathExpert.persona_prompt t2
          (LearningPathExpert._create_general_learning_prompt t2 input_data
             service_type), r3)] /\
    fst run = Returned t3 /\
    exists l : RunLog,
      self_workflow_logs (snd run) = (logs ++ [l])%list /\
      log_status l = "completed" /\
      length (log_steps l) = 3 /\
      log_error l = None.
Proof.
  intros Hunknown Hui. revert Hui.
  change (wp (AIEducationTeam.get_ai_education service_type input_data)
            (entry e logs)
            (fun out s' =>
               ui_returns ->
               exists r1 r2 r3 : Response,
                 let t1 := stage_result AIFoundationsExpert.no_response
                             AIFoundationsExpert.error_text r1 in
                 let t2 := stage_result PracticalAIExpert.no_response
                             PracticalAIExpert.error_text r2 in
                 let t3 := stage_result LearningPathExpert.no_response
                             LearningPathExpert.error_text r3 in
                 model_calls s' =
                   [(AIFoundationsExpert.persona_prompt
                       (AIFoundationsExpert._create_general_foundations_prompt
                          input_data service_type), r1);
                    (PracticalAIExpert.persona_prompt t1
                       (PracticalAIExpert._create_general_practical_prompt t1
                          input_data service_type), r2);
                    (LearningPathExpert.persona_prompt t2
                       (LearningPathExpert._create_general_learning_prompt t2
                          input_data service_type), r3)] /\
                 out = Returned t3 /\
                 exists l : RunLog,
                   self_workflow_logs s' = (logs ++ [l])%list /\
                   log_status l = "completed" /\
                   length (log_steps l) = 3 /\
                   log_error l = None)).
  wp_run; intros Hnominal; try ui_contradiction.
  state_facts. cbn [app].
  unfold AIFoundationsExpert.composed_prompt, PracticalAIExpert.composed_prompt,
    LearningPathExpert.composed_prompt.
  rewrite foundations_general, practical_general, learning_general by assumption.
  do 3 eexists. cbv zeta. split; [reflexivity |]. split; [reflexivity |].
  eexists. split; [reflexivity |]. repeat split.
Qed.

Lemma stage_result_not_empty (no_response : string) (error_text : string -> string)
  (r : Response) :
  no_response <> EmptyString ->
  (forall message, error_text message <> EmptyString) ->
  stage_result no_response error_text r <> EmptyString.
Proof.
  intros Hno Herr. destruct r as [[[| c t] |] | message]; cbn; auto. discriminate.
Qed.

(** C7, as the code has it.  A run that returns gives back a text, and only
    a text: its log is not part of what is returned, it has been stored as
    the last entry of [self.workflow_logs].  The text is never empty: it is
    a non-empty text the model generated for the third prompt, the fixed
    fallback of [finalize], the error text of [finalize] for some message, or
    the fixed apology.  A run that raises has stored nothing.  The run
    returns whenever no Streamlit call raises a script-control exception
    and [st.error] returns. *)
Theorem run_returns_non_empty_text (e : Env) (logs : list RunLog)
  (service_type : string) (input_data : InputData) :
  match fst (AIEducationTeam.get_ai_education service_type input_data
               (entry e logs)) with
  | Returned text =>
      (exists l : RunLog,
         self_workflow_logs
           (snd (AIEducationTeam.get_ai_education service_type input_data
                   (entry e logs))) = (logs ++ [l])%list) /\
      text <> EmptyString /\
      ((exists prompt : string,
          nth_error
            (model_calls
               (snd (AIEducationTeam.get_ai_education service_type input_data
                       (entry e logs)))) 2 =
            Some (prompt, Generated (Some text))) \/
       text = LearningPathExpert.no_response \/
       (exists message : string, text = LearningPathExpert.error_text message) \/
       text = AIEducationTeam.apology)
  | Raised _ =>
      self_workflow_logs
        (snd (AIEducationTeam.get_ai_education service_type input_data
                (entry e logs))) = logs
  end /\
  (no_script_control -> error_display_returns ->
   exists text : string,
     fst (AIEducationTeam.get_ai_education service_type input_data
            (entry e logs)) = Returned text).
Proof.
  change (wp (AIEducationTeam.get_ai_education service_type input_data)
            (entry e logs)
            (fun out s' =>
               match out with
               | Returned text =>
                   (exists l : RunLog,
                      self_workflow_logs s' = (logs ++ [l])%list) /\
                   text <> EmptyString /\
                   ((exists prompt : string,
                       nth_error (model_calls s') 2 =
                         Some (prompt, Generated (Some text))) \/
                    text = LearningPathExpert.no_response \/
                    (exists message : string,
                       text = LearningPathExpert.error_text message) \/
                    text = AIEducationTeam.apology)
               | Raised _ => self_workflow_logs s' = logs
               end /\
               (no_script_control -> error_display_returns ->
                exists text : string, out = Returned text))).
  wp_run; state_facts.
  all: split;
    [| intros Hcontrol Hdisplay;
       try ui_contradiction; try control_contradiction;
       try (eexists; reflexivity) ].
  all: try reflexivity.
  all: split; [eexists; reflexivity |].
  all: try (split; [discriminate | do 3 right; reflexivity]).
  split.
  - apply stage_result_not_empty; [discriminate | intros message; discriminate].
  - cbn [app nth_error].
    match goal with
    | |- context [stage_result LearningPathExpert.no_response _ ?r] =>
        destruct r as [[[| c t] |] | message]
    end; cbn [stage_result text_or truthy].
    + right. left. reflexivity.
    + left. eexists. reflexivity.
    + right. left. reflexivity.
    + right. right. left. eexists. reflexivity.
Qed.

(** What the [try] block leaves when it raises: the log is bound and has
    not been stored. *)
Lemma try_block_raised (e : Env) (logs : list RunLog)
  (service_type : string) (input_data : InputData) :
  wp (AIEducationTeam.try_block service_type input_data) (entry e logs)
     (fun out s1 =>
        match out with
        | Returned _ => True
        | Raised _ =>
            exists l : RunLog,
              workflow_log s1 = Some l /\ self_workflow_logs s1 = logs
        end).
Proof.
  wp_run; state_facts; try exact I.
  all: eexists; split; reflexivity.
Qed.

(** With no script-control exception and a working [st.error] the run
    returns. *)
Lemma run_returns (e : Env) (logs : list RunLog)
  (service_type : string) (input_data : InputData) :
  no_script_control -> error_display_returns ->
  exists text : string,
    fst (AIEducationTeam.get_ai_education service_type input_data
           (entry e logs)) = Returned text.
Proof.
  intros Hcontrol Hdisplay. revert Hcontrol Hdisplay.
  change (wp (AIEducationTeam.get_ai_education service_type input_data)
            (entry e logs)
            (fun out _ =>
               no_script_control -> error_display_returns ->
               exists text : string, out = Returned text)).
  wp_run; intros Hcontrol Hdisplay;
    try ui_contradiction; try control_contradiction.
  all: eexists; reflexivity.
Qed.

(** C2, as the code has it.  What leaves the run is decided by what the
    [try] block raised, which only a call outside the three experts can do.
    An [Exception] is caught: when the [st.error] call of the handler
    returns, the run returns the fixed apology and stores the log, marked
    error and carrying the message; when that [st.error] call raises, what
    it raises leaves the run and nothing is stored.  A script-control
    exception of Streamlit is not caught: it leaves the run as it is, with
    nothing stored.  So no exception leaves the run when no Streamlit call
    raises a script-control exception and [st.error] returns. *)
Theorem exception_outside_stages_is_absorbed (e : Env) (logs : list RunLog)
  (service_type : string) (input_data : InputData) :
  (forall (message : string) (s1 : State Env),
     AIEducationTeam.try_block service_type input_data (entry e logs) =
       (Raised (exception message), s1) ->
     fst (streamlit (st_error ("❌ 오류가 발생했습니다: " ++ message)) (env s1)) = None ->
     fst (AIEducationTeam.get_ai_education service_type input_data
            (entry e logs)) = Returned AIEducationTeam.apology /\
     exists l : RunLog,
       self_workflow_logs
         (snd (AIEducationTeam.get_ai_education service_type input_data
                 (entry e logs))) = (logs ++ [l])%list /\
       log_status l = "error" /\
       log_error l = Some message) /\
  (forall (message : string) (s1 : State Env) (thrown : Thrown),
     AIEducationTeam.try_block service_type input_data (entry e logs) =
       (Raised (exception message), s1) ->
     fst (streamlit (st_error ("❌ 오류가 발생했습니다: " ++ message)) (env s1)) =
       Some thrown ->
     fst (AIEducationTeam.get_ai_education service_type input_data
            (entry e logs)) = Raised thrown /\
     self_workflow_logs
       (snd (AIEducationTeam.get_ai_education service_type input_data
               (entry e logs))) = logs) /\
  (forall (signal : Signal) (s1 : State Env),
     AIEducationTeam.try_block service_type input_data (entry e logs) =
       (Raised (script_control signal), s1) ->
     AIEducationTeam.get_ai_education service_type input_data (entry e logs) =
       (Raised (script_control signal), s1) /\
     self_workflow_logs s1 = logs) /\
  (no_script_control -> error_display_returns ->
   exists text : string,
     fst (AIEducationTeam.get_ai_education service_type input_data
            (entry e logs)) = Returned text).
Proof.
  pose proof (try_block_raised e logs service_type input_data) as Hinv.
  unfold wp in Hinv.
  split; [| split; [| split]].
  - intros message s1 Hraised Hshown.
    rewrite Hraised in Hinv. cbn [fst snd] in Hinv.
    destruct Hinv as (l & Hlog & Hlogs).
    unfold AIEducationTeam.get_ai_education, try_except. rewrite Hraised.
    destruct s1 as [e1 logs1 wl1 hist1 calls1].
    cbn in Hlog, Hlogs, Hshown. subst wl1 logs1.
    revert Hshown.
    change (wp (AIEducationTeam.except_block message)
              (mkState e1 logs (Some l) hist1 calls1)
              (fun out s' =>
                 fst (streamlit (st_error ("❌ 오류가 발생했습니다: " ++ message)) e1)
                   = None ->
                 out = Returned AIEducationTeam.apology /\
                 exists l' : RunLog,
                   self_workflow_logs s' = (logs ++ [l'])%list /\
                   log_status l' = "error" /\ log_error l' = Some message)).
    repeat wp_step; intros Hshown;
      try (rewrite Hui in Hshown; discriminate Hshown).
    state_facts. split; [reflexivity |]. eexists. split; [reflexivity |].
    split; reflexivity.
  - intros message s1 thrown Hraised Hshown.
    rewrite Hraised in Hinv. cbn [fst snd] in Hinv.
    destruct Hinv as (l & Hlog & Hlogs).
    unfold AIEducationTeam.get_ai_education, try_except. rewrite Hraised.
    destruct s1 as [e1 logs1 wl1 hist1 calls1].
    cbn in Hlog, Hlogs, Hshown. subst wl1 logs1.
    revert Hshown.
    change (wp (AIEducationTeam.except_block message)
              (mkState e1 logs (Some l) hist1 calls1)
              (fun out s' =>
                 fst (streamlit (st_error ("❌ 오류가 발생했습니다: " ++ message)) e1)
                   = Some thrown ->
                 out = Raised thrown /\ self_workflow_logs s' = logs)).
    repeat wp_step; intros Hshown; rewrite Hui in Hshown;
      try discriminate Hshown; injection Hshown as <-; split; reflexivity.
  - intros signal s1 Hraised.
    rewrite Hraised in Hinv. cbn [fst snd] in Hinv.
    destruct Hinv as (l & _ & Hlogs).
    unfold AIEducationTeam.get_ai_education, try_except. rewrite Hraised.
    split; [reflexivity | exact Hlogs].
  - apply run_returns.
Qed.

End Pipeline.

(** In the run where nothing fails and the model answers [X], the log
    passes through a state with three steps that is still in progress: the
    third step is recorded before the status is set. *)
Lemma three_steps_while_in_progress :
  exists l : RunLog,
    In l (log_history
            (snd (AIEducationTeam.get_ai_education (world := scripted always_X)
                    (runtime := printable_runtime) "AI 개념 이해"
                    [("concept", "신경망이란?")] (entry 0 [])))) /\
    length (log_steps l) = 3 /\
    log_status l = "in_progress" /\
    log_status l <> "completed".
Proof.
  eexists. split; [| split; [| split]].
  - vm_compute. do 3 right. left. reflexivity.
  - reflexivity.
  - reflexivity.
  - discriminate.
Qed.

(** C9.  The first prompt of a run depends on the request alone.  Take two
    runs for the same service type and input, in any two worlds, from any
    two states of the world and with any logs stored before: if each sends a
    first prompt, the two prompts are equal, and equal to the prompt of
    [explain], which takes the service type and the input and no earlier
    text. *)
Theorem first_prompt_depends_on_request_only
  {Env1 Env2 : Type} (world1 : Collaborators Env1) (world2 : Collaborators Env2)
  {runtime : PyRuntime} (e1 : Env1) (e2 : Env2) (logs1 logs2 : list RunLog)
  (service_type : string) (input_data : InputData) (p1 p2 : string) :
  hd_error
    (prompts_sent
       (snd (AIEducationTeam.get_ai_education (world := world1) service_type
               input_data (entry e1 logs1)))) = Some p1 ->
  hd_error
    (prompts_sent
       (snd (AIEducationTeam.get_ai_education (world := world2) service_type
               input_data (entry e2 logs2)))) = Some p2 ->
  p1 = p2 /\ p1 = AIFoundationsExpert.composed_prompt service_type input_data.
Proof.
  intros H1 H2.
  apply first_prompt_of_run in H1. apply first_prompt_of_run in H2.
  split; congruence.
Qed.

(** ** The properties at concrete runs *)

Lemma first_prompt_depends_on_request_only_witness :
  let request := [("tool_name", "ChatGPT"); ("purpose", "report drafting")] in
  let stale := mkRunLog "AI 개념 이해" "2024-01-01 09:00:00" [] [] "error"
                 (Some "earlier failure") in
  let first_prompt :=
    AIFoundationsExpert.composed_prompt (runtime := printable_runtime)
      "AI 도구 사용법" request in
  hd_error
    (prompts_sent
       (snd (AIEducationTeam.get_ai_education (world := scripted always_X)
               (runtime := printable_runtime) "AI 도구 사용법" request
               (entry 0 [])))) = Some first_prompt /\
  hd_error
    (prompts_sent
       (snd (AIEducationTeam.get_ai_education (world := scripted quota_exceeded)
               (runtime := printable_runtime) "AI 도구 사용법" request
               (entry 7 [stale])))) = Some first_prompt /\
  first_prompt = first_prompt.
Proof.
  intros request stale first_prompt.
  assert (H1 : hd_error
    (prompts_sent
       (snd (AIEducationTeam.get_ai_education (world := scripted always_X)
               (runtime := printable_runtime) "AI 도구 사용법" request
               (entry 0 [])))) = Some first_prompt) by (vm_compute; reflexivity).
  assert (H2 : hd_error
    (prompts_sent
       (snd (AIEducationTeam.get_ai_education (world := scripted quota_exceeded)
               (runtime := printable_runtime) "AI 도구 사용법" request
               (entry 7 [stale])))) = Some first_prompt) by (vm_compute; reflexivity).
  split; [exact H1 |]. split; [exact H2 |].
  exact (proj1 (first_prompt_depends_on_request_only (scripted always_X)
                  (scripted quota_exceeded) 0 7 [] [stale] "AI 도구 사용법" request
                  first_prompt first_prompt H1 H2)).
Defined.

Lemma quota_exceeded_run_completes_witness :
  (forall (prompt : string) (n : nat),
     fst (generate_content (Collaborators := scripted quota_exceeded) prompt n) =
       ModelError "quota exceeded") /\
  ui_returns (world := scripted quota_exceeded) /\
  fst (AIEducationTeam.get_ai_education (world := scripted quota_exceeded)
         (runtime := printable_runtime) "AI 개념 이해"
         [("concept", "신경망이란?")] (entry 0 [])) =
    Returned "학습 경로 생성 중 오류가 발생했습니다: quota exceeded".
Proof.
  assert (Hquota : forall (prompt : string) (n : nat),
     fst (generate_content (Collaborators := scripted quota_exceeded) prompt n) =
       ModelError "quota exceeded") by (intros prompt n; reflexivity).
  assert (Hnominal : ui_returns (world := scripted quota_exceeded))
    by (intros c n; reflexivity).
  split; [exact Hquota |]. split; [exact Hnominal |].
  exact (proj1 (quota_exceeded_run_completes (world := scripted quota_exceeded)
                  (runtime := printable_runtime) 0 [] "AI 개념 이해"
                  [("concept", "신경망이란?")] Hquota Hnominal)).
Defined.

Lemma unknown_service_run_completes_witness :
  ~ In "Unknown" known_service_types /\
  ui_returns (world := scripted always_X) /\
  exists l : RunLog,
    self_workflow_logs
      (snd (AIEducationTeam.get_ai_education (world := scripted always_X)
              (runtime := printable_runtime) "Unknown" [] (entry 0 []))) = [l] /\
    log_status l = "completed".
Proof.
  assert (Hunknown : ~ In "Unknown" known_service_types).
  { unfold known_service_types. cbn [In]. intros H.
    repeat (destruct H as [H | H]; [discriminate H |]). exact H. }
  assert (Hnominal : ui_returns (world := scripted always_X))
    by (intros c n; reflexivity).
  split; [exact Hunknown |]. split; [exact Hnominal |].
  destruct (unknown_service_run_completes (world := scripted always_X)
              (runtime := printable_runtime) 0 [] "Unknown" [] Hunknown Hnominal)
    as (r1 & r2 & r3 & _ & _ & l & Hstored & Hstatus & _).
  exists l. split; [exact Hstored | exact Hstatus].
Defined.

Lemma stages_run_in_order_and_thread_witness :
  ui_returns (world := scripted always_X) /\
  exists r1 r2 r3 : Response,
    model_calls
      (snd (AIEducationTeam.get_ai_education (world := scripted always_X)
              (runtime := printable_runtime) "AI 개념 이해"
              [("concept", "신경망이란?")] (entry 0 []))) =
    [(AIFoundationsExpert.composed_prompt (runtime := printable_runtime)
        "AI 개념 이해" [("concept", "신경망이란?")], r1);
     (PracticalAIExpert.composed_prompt (runtime := printable_runtime)
        (stage_result AIFoundationsExpert.no_response
           AIFoundationsExpert.error_text r1)
        "AI 개념 이해" [("concept", "신경망이란?")], r2);
     (LearningPathExpert.composed_prompt (runtime := printable_runtime)
        (stage_result PracticalAIExpert.no_response
           PracticalAIExpert.error_text r2)
        "AI 개념 이해" [("concept", "신경망이란?")], r3)].
Proof.
  assert (Hnominal : ui_returns (world := scripted always_X))
    by (intros c n; reflexivity).
  split; [exact Hnominal |].
  destruct (stages_run_in_order_and_thread (world := scripted always_X)
              (runtime := printable_runtime) 0 [] "AI 개념 이해"
              [("concept", "신경망이란?")])
    as (r1 & r2 & r3 & _ & _ & _ & Hall & _).
  exists r1, r2, r3. exact (proj1 (Hall Hnominal)).
Defined.

Lemma run_returns_non_empty_text_witness :
  no_script_control (world := scripted always_X) /\
  error_display_returns (world := scripted always_X) /\
  exists text : string,
    fst (AIEducationTeam.get_ai_education (world := scripted always_X)
           (runtime := printable_runtime) "AI 개념 이해"
           [("concept", "신경망이란?")] (entry 0 [])) = Returned text.
Proof.
  assert (Hcontrol : no_script_control (world := scripted always_X))
    by (intros c n signal; discriminate).
  assert (Hdisplay : error_display_returns (world := scripted always_X))
    by (intros body n; reflexivity).
  split; [exact Hcontrol |]. split; [exact Hdisplay |].
  exact (proj2 (run_returns_non_empty_text (world := scripted always_X)
                  (runtime := printable_runtime) 0 [] "AI 개념 이해"
                  [("concept", "신경망이란?")]) Hcontrol Hdisplay).
Defined.

Lemma exception_outside_stages_is_absorbed_witness :
  fst (AIEducationTeam.try_block (world := scripted late_failure)
         (runtime := printable_runtime) "AI 개념 이해"
         [("concept", "신경망이란?")] (entry 0 [])) =
    Raised (exception "connection lost") /\
  fst (streamlit (Collaborators := scripted late_failure)
         (st_error ("❌ 오류가 발생했습니다: " ++ "connection lost"))
         (env (snd (AIEducationTeam.try_block (world := scripted late_failure)
                      (runtime := printable_runtime) "AI 개념 이해"
                      [("concept", "신경망이란?")] (entry 0 []))))) = None /\
  fst (AIEducationTeam.get_ai_education (world := scripted late_failure)
         (runtime := printable_runtime) "AI 개념 이해"
         [("concept", "신경망이란?")] (entry 0 [])) =
    Returned AIEducationTeam.apology.
Proof.
  split; [vm_compute; reflexivity |]. split; [reflexivity |].
  refine (proj1 (proj1 (exception_outside_stages_is_absorbed
                          (world := scripted late_failure)
                          (runtime := printable_runtime) 0 []
                          "AI 개념 이해" [("concept", "신경망이란?")])
                   "connection lost"
                   (snd (AIEducationTeam.try_block (world := scripted late_failure)
                           (runtime := printable_runtime) "AI 개념 이해"
                           [("concept", "신경망이란?")] (entry 0 []))) _ _)).
  - vm_compute. reflexivity.
  - reflexivity.
Defined.

(** When the first Streamlit call of a run raises an [Exception], no expert
    runs: the model is not called, and the run returns the apology. *)
Lemma no_stage_runs_after_an_early_failure :
  model_calls
    (snd (AIEducationTeam.get_ai_education (world := scripted failing_start)
            (runtime := printable_runtime) "AI 개념 이해"
            [("concept", "신경망이란?")] (entry 0 []))) = [] /\
  fst (AIEducationTeam.get_ai_education (world := scripted failing_start)
         (runtime := printable_runtime) "AI 개념 이해"
         [("concept", "신경망이란?")] (entry 0 [])) =
    Returned AIEducationTeam.apology.
Proof. split; vm_compute; reflexivity. Qed.

(** The model raises [quota exceeded] on every call, but the first Streamlit
    call of the run raises: the run returns the apology, not the error text
    of [finalize], and the log it stores is marked error and has no step. *)
Lemma quota_exceeded_after_an_early_failure :
  let run :=
    AIEducationTeam.get_ai_education
      (world := scripted quota_exceeded_failing_start)
      (runtime := printable_runtime) "AI 개념 이해"
      [("concept", "신경망이란?")] (entry 0 []) in
  (forall (prompt : string) (n : nat),
     fst (generate_content (Collaborators := scripted quota_exceeded_failing_start)
            prompt n) = ModelError "quota exceeded") /\
  fst run = Returned AIEducationTeam.apology /\
  fst run <> Returned (LearningPathExpert.error_text "quota exceeded") /\
  map (fun l => (length (log_steps l), log_status l, log_error l))
      (self_workflow_logs (snd run)) = [(0, "error", Some "boom")].
Proof.
  split; [intros prompt n; reflexivity |].
  split; [vm_compute; reflexivity |].
  split; [vm_compute; discriminate |].
  vm_compute. reflexivity.
Qed.

(** A service type outside the five known ones, the first Streamlit call of
    the run raises: no expert runs, no prompt is sent, and the log stored is
    marked error. *)
Lemma unknown_service_after_an_early_failure :
  let run :=
    AIEducationTeam.get_ai_education (world := scripted failing_start)
      (runtime := printable_runtime) "Unknown" [] (entry 0 []) in
  ~ In "Unknown" known_service_types /\
  prompts_sent (snd run) = [] /\
  map log_status (self_workflow_logs (snd run)) = ["error"].
Proof.
  split.
  - unfold known_service_types. cbn [In]. intros H.
    repeat (destruct H as [H | H]; [discriminate H |]). exact H.
  - split; vm_compute; reflexivity.
Qed.

(** Streamlit asks for a rerun inside the [st.success] after the first
    expert, and every [st.error] call would return: the exception is not
    caught, it leaves the run, and no log is stored. *)
Lemma rerun_escapes_the_run :
  error_display_returns (world := scripted rerun_requested) /\
  fst (AIEducationTeam.get_ai_education (world := scripted rerun_requested)
         (runtime := printable_runtime) "AI 개념 이해"
         [("concept", "신경망이란?")] (entry 0 [])) =
    Raised (script_control rerun_script) /\
  self_workflow_logs
    (snd (AIEducationTeam.get_ai_education (world := scripted rerun_requested)
            (runtime := printable_runtime) "AI 개념 이해"
            [("concept", "신경망이란?")] (entry 0 []))) = [].
Proof.
  split; [intros body n; reflexivity |].
  split; vm_compute; reflexivity.
Qed.

(** When every Streamlit call raises an [Exception], [st.error] in the
    handler raises too and its exception leaves the run; the log is not
    stored. *)
Lemma display_failure_escapes :
  fst (AIEducationTeam.get_ai_education (world := scripted broken_display)
         (runtime := printable_runtime) "AI 개념 이해"
         [("concept", "신경망이란?")] (entry 0 [])) =
    Raised (exception "display unavailable") /\
  self_workflow_logs
    (snd (AIEducationTeam.get_ai_education (world := scripted broken_display)
            (runtime := printable_runtime) "AI 개념 이해"
            [("concept", "신경망이란?")] (entry 0 []))) = [].
Proof.
  split; vm_compute; reflexivity.
Qed.

(** A run that does not return although every [st.error] call would:
    Streamlit stops the script inside the [st.success] after the third
    expert.  No text comes back and no log is stored, for any text and log
    one may name. *)
Lemma run_without_result :
  let run :=
    AIEducationTeam.get_ai_education (world := scripted stopped_late)
      (runtime := printable_runtime) "Unknown" [] (entry 0 []) in
  error_display_returns (world := scripted stopped_late) /\
  self_workflow_logs (snd run) = [] /\
  ~ exists (text : string) (l : RunLog),
      fst run = Returned text /\ self_workflow_logs (snd run) = [l].
Proof.
  intros run. split; [intros body n; reflexivity |].
  split; [vm_compute; reflexivity |].
  intros [text [l [Hreturned _]]].
  vm_compute in Hreturned. discriminate Hreturned.
Qed.

(** Scenario A of the specification: the model answers [X] to everything. *)
Example scenario_always_X :
  let run :=
    AIEducationTeam.get_ai_education (world := scripted always_X)
      (runtime := printable_runtime) "AI 개념 이해"
      [("concept", "신경망이란?")] (entry 0 []) in
  fst run = Returned "X" /\
  map (fun l => (length (log_steps l), log_status l))
      (self_workflow_logs (snd run)) = [(3, "completed")].
Proof. split; vm_compute; reflexivity. Qed.

(** A failure after the third step: the stored log has three steps and is
    marked error. *)
Example scenario_late_failure :
  let run :=
    AIEducationTeam.get_ai_education (world := scripted late_failure)
      (runtime := printable_runtime) "AI 개념 이해"
      [("concept", "신경망이란?")] (entry 0 []) in
  fst run = Returned AIEducationTeam.apology /\
  map (fun l => (length (log_steps l), log_status l, log_error l))
      (self_workflow_logs (snd run)) = [(3, "error", Some "connection lost")].
Proof. split; vm_compute; reflexivity. Qed.

(** Scenario D of the specification: the model returns an empty text for
    the first prompt only.  The fallback of [explain] is the earlier text of
    the second prompt, and the run returns what the model generated last. *)
Example scenario_empty_first_answer :
  let world :=
    scripted {| model_script := fun n _ =>
                  if Nat.eqb n 3 then Generated (Some EmptyString)
                  else Generated (Some "X");
                ui_script := fun _ _ => None |} in
  let run :=
    AIEducationTeam.get_ai_education (world := world)
      (runtime := printable_runtime) "AI 개념 이해"
      [("concept", "신경망이란?")] (entry 0 []) in
  fst run = Returned "X" /\
  nth_error (prompts_sent (snd run)) 1 =
    Some (PracticalAIExpert.composed_prompt (runtime := printable_runtime)
            AIFoundationsExpert.no_response
            "AI 개념 이해" [("concept", "신경망이란?")]) /\
  Contains
    (PracticalAIExpert.composed_prompt (runtime := printable_runtime)
       AIFoundationsExpert.no_response
       "AI 개념 이해" [("concept", "신경망이란?")])
    "응답을 생성할 수 없습니다. 다시 시도해주세요.".
Proof.
  split; [vm_compute; reflexivity |].
  split; [vm_compute; reflexivity |].
  apply practical_prompt_threads.
Qed.

(** * Further properties *)

(** ** The templates of the five service types *)

Ltac contains_piece :=
  lazymatch goal with
  | |- Contains (?v ++ _) ?v => exists EmptyString; eexists; reflexivity
  | |- Contains (_ ++ ?v) ?v => apply Contains_suffix
  | |- Contains (_ ++ _) _ => apply Contains_append_l; contains_piece
  end.

Ltac known_service H :=
  unfold known_service_types in H; cbn [In] in H;
  repeat (destruct H as [H | H]; [subst |]); [.. | destruct H].

Lemma append_cong (a a' b b' : string) : a = a' -> b = b' -> a ++ b = a' ++ b'.
Proof. now intros -> ->. Qed.

Section KnownTemplates.
Context {runtime : PyRuntime}.

Lemma templates_embed_field
  (previous_explanation service_type field : string) (input_data : InputData) :
  In field (service_fields service_type) ->
  Contains (AIFoundationsExpert.select_prompt service_type input_data)
    (dict_get input_data field EmptyString) /\
  Contains (PracticalAIExpert.select_prompt previous_explanation service_type input_data)
    (dict_get input_data field EmptyString) /\
  Contains (LearningPathExpert.select_prompt previous_explanation service_type input_data)
    (dict_get input_data field EmptyString).
Proof.
  unfold service_fields, AIFoundationsExpert.select_prompt,
    PracticalAIExpert.select_prompt, LearningPathExpert.select_prompt.
  repeat (destruct (String.eqb service_type _));
    cbn [In]; intros Hfield;
    repeat (destruct Hfield as [<- | Hfield]); try destruct Hfield.
  all: repeat split.
  all: unfold AIFoundationsExpert._create_concept_prompt,
    AIFoundationsExpert._create_tool_basics_prompt,
    AIFoundationsExpert._create_learning_basics_prompt,
    AIFoundationsExpert._create_ethics_basics_prompt,
    AIFoundationsExpert._create_cs_spec_basics_prompt,
    PracticalAIExpert._create_concept_practical_prompt,
    PracticalAIExpert._create_tool_practical_prompt,
    PracticalAIExpert._create_learning_practical_prompt,
    PracticalAIExpert._create_ethics_practical_prompt,
    PracticalAIExpert._create_cs_spec_practical_prompt,
    LearningPathExpert._create_concept_learning_prompt,
    LearningPathExpert._create_tool_learning_prompt,
    LearningPathExpert._create_comprehensive_learning_prompt,
    LearningPathExpert._create_ethics_learning_prompt,
    LearningPathExpert._create_cs_spec_learning_prompt.
  all: contains_piece.
Qed.

(** X1.  Each field a known service type reads appears in the selected template
    of every expert with the value the mapping has for it. *)
Theorem known_prompts_embed_fields
  (previous_explanation service_type field : string) (input_data : InputData) :
  In field (service_fields service_type) ->
  Contains (AIFoundationsExpert.select_prompt service_type input_data)
    (dict_get input_data field EmptyString) /\
  Contains (PracticalAIExpert.select_prompt previous_explanation service_type input_data)
    (dict_get input_data field EmptyString) /\
  Contains (LearningPathExpert.select_prompt previous_explanation service_type input_data)
    (dict_get input_data field EmptyString).
Proof.
  intros Hfield. split; [| split];
    apply (templates_embed_field previous_explanation service_type field
             input_data Hfield).
Qed.

(** X2.  For a known service type the prompts read the mapping through the
    service's fields alone: two mappings that give the same value (or both
    none) for each of them give the same three prompts.  Other keys never
    reach a prompt, and a missing field reads as the empty text. *)
Theorem known_prompts_depend_on_fields_only
  (previous_explanation service_type : string) (input_data other : InputData) :
  In service_type known_service_types ->
  (forall field : string,
     In field (service_fields service_type) ->
     dict_get input_data field EmptyString = dict_get other field EmptyString) ->
  AIFoundationsExpert.composed_prompt service_type input_data =
    AIFoundationsExpert.composed_prompt service_type other /\
  PracticalAIExpert.composed_prompt previous_explanation service_type input_data =
    PracticalAIExpert.composed_prompt previous_explanation service_type other /\
  LearningPathExpert.composed_prompt previous_explanation service_type input_data =
    LearningPathExpert.composed_prompt previous_explanation service_type other.
Proof.
  intros Hknown Hsame.
  unfold AIFoundationsExpert.composed_prompt, PracticalAIExpert.composed_prompt,
    LearningPathExpert.composed_prompt.
  assert (Hselect :
    AIFoundationsExpert.select_prompt service_type input_data =
      AIFoundationsExpert.select_prompt service_type other /\
    PracticalAIExpert.select_prompt previous_explanation service_type input_data =
      PracticalAIExpert.select_prompt previous_explanation service_type other /\
    LearningPathExpert.select_prompt previous_explanation service_type input_data =
      LearningPathExpert.select_prompt previous_explanation service_type other).
  { known_service Hknown.
    all: repeat split.
    all: cbv beta iota delta
      [AIFoundationsExpert.select_prompt PracticalAIExpert.select_prompt
       LearningPathExpert.select_prompt String.eqb Ascii.eqb Bool.eqb
       AIFoundationsExpert._create_concept_prompt
       AIFoundationsExpert._create_tool_basics_prompt
       AIFoundationsExpert._create_learning_basics_prompt
       AIFoundationsExpert._create_ethics_basics_prompt
       AIFoundationsExpert._create_cs_spec_basics_prompt
       PracticalAIExpert._create_concept_practical_prompt
       PracticalAIExpert._create_tool_practical_prompt
       PracticalAIExpert._create_learning_practical_prompt
       PracticalAIExpert._create_ethics_practical_prompt
       PracticalAIExpert._create_cs_spec_practical_prompt
       LearningPathExpert._create_concept_learning_prompt
       LearningPathExpert._create_tool_learning_prompt
       LearningPathExpert._create_comprehensive_learning_prompt
       LearningPathExpert._create_ethics_learning_prompt
       LearningPathExpert._create_cs_spec_learning_prompt].
    all: repeat
      lazymatch goal with
      | |- dict_get _ _ _ ++ _ = dict_get _ _ _ ++ _ =>
          apply append_cong; [apply Hsame; vm_compute; tauto |]
      | |- ?a ++ _ = ?a ++ _ => apply (f_equal (append a))
      end.
    all: reflexivity. }
  destruct Hselect as (-> & -> & ->). repeat split.
Qed.

End KnownTemplates.

(** ** The earlier text in the prompts of the second and third expert *)

Lemma append_around (c1 c2 c3 c4 A opening text closing B rest : string) :
  c1 ++ c2 ++ c3 ++ c4 ++ (A ++ opening) ++ text ++ (closing ++ B) ++ rest =
  (c1 ++ c2 ++ c3 ++ c4 ++ A) ++ opening ++ text ++ closing ++ B ++ rest.
Proof. now rewrite !append_assoc. Qed.

Ltac split_around opening closing :=
  lazymatch goal with
  | |- ?c1 ++ ?c2 ++ ?c3 ++ ?c4 ++ ?l3 ++ ?text ++ ?l4 ++ ?rest = _ =>
      let A := eval vm_compute in
        (substring 0 (String.length l3 - String.length opening) l3) in
      let B := eval vm_compute in
        (substring (String.length closing)
           (String.length l4 - String.length closing) l4) in
      transitivity
        (c1 ++ c2 ++ c3 ++ c4 ++ (A ++ opening) ++ text ++ (closing ++ B) ++ rest);
      [reflexivity | rewrite append_around; reflexivity]
  end.

Section EarlierText.
Context {runtime : PyRuntime}.

Lemma practical_select_ignores_previous
  (previous_explanation service_type : string) (input_data : InputData) :
  PracticalAIExpert.select_prompt previous_explanation service_type input_data =
  PracticalAIExpert.select_prompt EmptyString service_type input_data.
Proof. reflexivity. Qed.

Lemma learning_select_ignores_previous
  (previous_explanation service_type : string) (input_data : InputData) :
  LearningPathExpert.select_prompt previous_explanation service_type input_data =
  LearningPathExpert.select_prompt EmptyString service_type input_data.
Proof. reflexivity. Qed.

(** X3.  The text of the earlier expert enters the prompt of [enhance] and of
    [finalize] at one place only, between the opening and the closing marker
    line; what stands before and after the marked block is fixed by the
    service type and the input, whatever the earlier text is. *)
Theorem earlier_text_sits_between_markers
  (service_type : string) (input_data : InputData) :
  (exists before after : string,
     forall previous_explanation : string,
       PracticalAIExpert.composed_prompt previous_explanation service_type
         input_data =
       before ++ "=== 기초 전문가의 설명 ===
            " ++ previous_explanation ++ "
            === 설명 끝 ===" ++ after) /\
  (exists before after : string,
     forall previous_explanation : string,
       LearningPathExpert.composed_prompt previous_explanation service_type
         input_data =
       before ++ "=== 이전 전문가들의 설명 ===
            " ++ previous_explanation ++ "
            === 설명 끝 ===" ++ after).
Proof.
  split; eexists; eexists; intros previous_explanation.
  - unfold PracticalAIExpert.composed_prompt.
    rewrite practical_select_ignores_previous.
    unfold PracticalAIExpert.persona_prompt.
    split_around "=== 기초 전문가의 설명 ===
            " "
            === 설명 끝 ===".
  - unfold LearningPathExpert.composed_prompt.
    rewrite learning_select_ignores_previous.
    unfold LearningPathExpert.persona_prompt.
    split_around "=== 이전 전문가들의 설명 ===
            " "
            === 설명 끝 ===".
Qed.

End EarlierText.

(** ** What the log of a run records *)

Section RunRecords.
Context {Env : Type} {world : Collaborators Env} {runtime : PyRuntime}.

(** X4.  Whatever the model and Streamlit do, the log of a run carries the
    service type of the request and one step for each call of the model made
    so far: the steps name the experts and their actions in the fixed order,
    as far as the run got.  When the run returns, this log is the one it has
    stored. *)
Theorem steps_follow_model_calls (e : Env) (logs : list RunLog)
  (service_type : string) (input_data : InputData) :
  exists l : RunLog,
    workflow_log
      (snd (AIEducationTeam.get_ai_education service_type input_data
              (entry e logs))) = Some l /\
    log_service_type l = service_type /\
    log_experts_involved l =
      ["AIFoundationsExpert"; "PracticalAIExpert"; "LearningPathExpert"] /\
    map step_tag (log_steps l) =
      firstn
        (length
           (model_calls
              (snd (AIEducationTeam.get_ai_education service_type input_data
                      (entry e logs)))))
        stage_tags /\
    match fst (AIEducationTeam.get_ai_education service_type input_data
                 (entry e logs)) with
    | Returned _ =>
        self_workflow_logs
          (snd (AIEducationTeam.get_ai_education service_type input_data
                  (entry e logs))) = (logs ++ [l])%list
    | Raised _ => log_status l = "in_progress"
    end.
Proof.
  change (wp (AIEducationTeam.get_ai_education service_type input_data)
            (entry e logs)
            (fun out s' =>
               exists l : RunLog,
                 workflow_log s' = Some l /\
                 log_service_type l = service_type /\
                 log_experts_involved l =
                   ["AIFoundationsExpert"; "PracticalAIExpert";
                    "LearningPathExpert"] /\
                 map step_tag (log_steps l) =
                   firstn (length (model_calls s')) stage_tags /\
                 match out with
                 | Returned _ => self_workflow_logs s' = (logs ++ [l])%list
                 | Raised _ => log_status l = "in_progress"
                 end)).
  wp_run; state_facts.
  all: eexists; split; [reflexivity |].
  all: repeat split.
Qed.

(** X5.  When the Streamlit calls return, every run, whatever the model answers
    or raises, calls the model three times, returns the text of [finalize],
    and stores one log: marked completed, without error message, stamped
    with the clock at the start, with the three steps in order. *)
Theorem run_with_working_display (e : Env) (logs : list RunLog)
  (service_type : string) (input_data : InputData) :
  ui_returns ->
  exists (l : RunLog) (r3 : Response) (prompt3 : string),
    let run := AIEducationTeam.get_ai_education service_type input_data
                 (entry e logs) in
    self_workflow_logs (snd run) = (logs ++ [l])%list /\
    log_service_type l = service_type /\
    log_timestamp l = strftime_now "%Y-%m-%d %H:%M:%S" e /\
    map step_tag (log_steps l) = stage_tags /\
    log_status l = "completed" /\
    log_error l = None /\
    length (model_calls (snd run)) = 3 /\
    nth_error (model_calls (snd run)) 2 = Some (prompt3, r3) /\
    fst run =
      Returned (stage_result LearningPathExpert.no_response
                  LearningPathExpert.error_text r3).
Proof.
  intros Hnominal. revert Hnominal.
  change (wp (AIEducationTeam.get_ai_education service_type input_data)
            (entry e logs)
            (fun out s' =>
               ui_returns ->
               exists (l : RunLog) (r3 : Response) (prompt3 : string),
                 self_workflow_logs s' = (logs ++ [l])%list /\
                 log_service_type l = service_type /\
                 log_timestamp l = strftime_now "%Y-%m-%d %H:%M:%S" e /\
                 map step_tag (log_steps l) = stage_tags /\
                 log_status l = "completed" /\
                 log_error l = None /\
                 length (model_calls s') = 3 /\
                 nth_error (model_calls s') 2 = Some (prompt3, r3) /\
                 out =
                   Returned (stage_result LearningPathExpert.no_response
                               LearningPathExpert.error_text r3))).
  wp_run; intros Hnominal; try ui_contradiction.
  state_facts. do 3 eexists. split; [reflexivity |]. repeat split.
Qed.

End RunRecords.
(** ** Rules for running the page script *)

Section PageRules.
Context {Env : Type} {world : Collaborators Env} {platform : Platform Env}
  {runtime : PyRuntime} {text : PyText}.

Lemma pwp_ret {A : Type} (a : A) (ss : Session Env) Q :
  Q (Done a) ss -> page_wp (page_ret a) ss Q.
Proof. exact (fun q => q). Qed.

Lemma pwp_bind {A B : Type} (m : P Env A) (k : A -> P Env B) (ss : Session Env) Q :
  page_wp m ss (fun o ss1 =>
                  match o with
                  | Done a => page_wp (k a) ss1 Q
                  | Failed e => Q (Failed e) ss1
                  | Stopped => Q Stopped ss1
                  | Rerun => Q Rerun ss1
                  end) ->
  page_wp (page_bind m k) ss Q.
Proof.
  unfold page_wp, page_bind. destruct (m ss) as [[a | e | |] ss1]; cbn; auto.
Qed.

Lemma pwp_try {A : Type} (body : P Env A) (handler : string -> P Env A)
  (ss : Session Env) Q :
  page_wp body ss (fun o ss1 =>
                     match o with
                     | Failed e => page_wp (handler e) ss1 Q
                     | other => Q other ss1
                     end) ->
  page_wp (page_try body handler) ss Q.
Proof.
  unfold page_wp, page_try. destruct (body ss) as [[a | e | |] ss1]; cbn; auto.
Qed.

Lemma pwp_stop {A : Type} (ss : Session Env) (Q : Flow A -> Session Env -> Prop) :
  Q Stopped ss -> page_wp st_stop ss Q.
Proof. exact (fun q => q). Qed.

Lemma pwp_rerun {A : Type} (ss : Session Env) (Q : Flow A -> Session Env -> Prop) :
  Q Rerun ss -> page_wp st_rerun ss Q.
Proof. exact (fun q => q). Qed.

Lemma pwp_show (c : PageCall) (e : Env) sl ct pc mc Q :
  (forall r e', page c e = (r, e') ->
     match r with
     | None => Q (Done tt) (mkSession e' sl ct (pc ++ [c])%list mc)
     | Some message => Q (Failed message) (mkSession e' sl ct (pc ++ [c])%list mc)
     end) ->
  page_wp (show c) (mkSession e sl ct pc mc) Q.
Proof.
  intros HQ. unfold page_wp, show. cbn.
  specialize (HQ (fst (page c e)) (snd (page c e))).
  destruct (page c e) as [[message |] e']; cbn in *; auto.
Qed.

Lemma pwp_button (label : string) (e : Env) sl ct pc mc Q :
  (forall r e', st_button label e = (r, e') ->
     match r with
     | inl pressed => Q (Done pressed) (mkSession e' sl ct pc mc)
     | inr message => Q (Failed message) (mkSession e' sl ct pc mc)
     end) ->
  page_wp (button label) (mkSession e sl ct pc mc) Q.
Proof.
  intros HQ. unfold page_wp, button. cbn.
  specialize (HQ (fst (st_button label e)) (snd (st_button label e))).
  destruct (st_button label e) as [[pressed | message] e']; cbn in *; auto.
Qed.

Lemma pwp_library (f : Env -> option string * Env) (e : Env) sl ct pc mc Q :
  (forall r e', f e = (r, e') ->
     match r with
     | None => Q (Done tt) (mkSession e' sl ct pc mc)
     | Some message => Q (Failed message) (mkSession e' sl ct pc mc)
     end) ->
  page_wp (library_call f) (mkSession e sl ct pc mc) Q.
Proof.
  intros HQ. unfold page_wp, library_call. cbn.
  specialize (HQ (fst (f e)) (snd (f e))).
  destruct (f e) as [[message |] e']; cbn in *; auto.
Qed.

Lemma pwp_read_team (e : Env) sl ct pc mc Q :
  Q (Done ct) (mkSession e sl ct pc mc) ->
  page_wp read_current_team (mkSession e sl ct pc mc) Q.
Proof. exact (fun q => q). Qed.

Lemma pwp_set_team (team : Team) (e : Env) sl ct pc mc Q :
  Q (Done tt) (mkSession e sl (Some team) pc mc) ->
  page_wp (set_current_team team) (mkSession e sl ct pc mc) Q.
Proof. exact (fun q => q). Qed.

Lemma pwp_read_logs (e : Env) sl ct pc mc Q :
  Q (Done sl) (mkSession e sl ct pc mc) ->
  page_wp read_session_logs (mkSession e sl ct pc mc) Q.
Proof. exact (fun q => q). Qed.

Lemma pwp_set_logs (logs : list RunLog) (e : Env) sl ct pc mc Q :
  Q (Done tt) (mkSession e logs ct pc mc) ->
  page_wp (set_session_logs logs) (mkSession e sl ct pc mc) Q.
Proof. exact (fun q => q). Qed.

Lemma pwp_extend (e : Env) sl team pc mc Q :
  Q (Done tt) (mkSession e (sl ++ team_workflow_logs team)%list (Some team) pc mc) ->
  page_wp extend_session_logs (mkSession e sl (Some team) pc mc) Q.
Proof. exact (fun q => q). Qed.

Lemma pwp_last_log (e : Env) sl key logs l pc mc Q :
  Q (Done l) (mkSession e sl (Some (mkTeam key (logs ++ [l])%list)) pc mc) ->
  page_wp last_team_log (mkSession e sl (Some (mkTeam key (logs ++ [l])%list)) pc mc) Q.
Proof.
  unfold page_wp, last_team_log. cbn. rewrite rev_unit. exact (fun q => q).
Qed.

(** What a run leaves in the team's logs. *)
Lemma run_store (e : Env) (logs : list RunLog)
  (service_type : string) (input_data : InputData) :
  wp (AIEducationTeam.get_ai_education service_type input_data) (entry e logs)
     (fun out s' =>
        match out with
        | Returned _ =>
            exists l : RunLog,
              self_workflow_logs s' = (logs ++ [l])%list /\
              log_service_type l = service_type
        | Raised _ => self_workflow_logs s' = logs
        end).
Proof.
  wp_run; state_facts; try reflexivity.
  all: eexists; split; reflexivity.
Qed.

Lemma pwp_team_run (service_type : string) (input_data : InputData)
  (e : Env) sl key tl pc mc Q :
  (forall result s' l,
     AIEducationTeam.get_ai_education service_type input_data (entry e tl) =
       (Returned result, s') ->
     log_service_type l = service_type ->
     Q (Done result)
       (mkSession (env s') sl (Some (mkTeam key (tl ++ [l])%list)) pc
          (mc ++ model_calls s')%list)) ->
  (forall thrown s',
     AIEducationTeam.get_ai_education service_type input_data (entry e tl) =
       (Raised thrown, s') ->
     Q (thrown_flow thrown)
       (mkSession (env s') sl (Some (mkTeam key tl)) pc
          (mc ++ model_calls s')%list)) ->
  page_wp (team_get_ai_education service_type input_data)
    (mkSession e sl (Some (mkTeam key tl)) pc mc) Q.
Proof.
  intros Hdone Hfailed. unfold page_wp, team_get_ai_education. cbn.
  pose proof (run_store e tl service_type input_data) as Hstore.
  unfold wp in Hstore.
  destruct (AIEducationTeam.get_ai_education service_type input_data (entry e tl))
    as [[result | thrown] s'] eqn:Hrun; cbn in Hstore |- *.
  - destruct Hstore as (l & -> & Hservice). now apply Hdone.
  - rewrite Hstore. now apply Hfailed.
Qed.

End PageRules.

Ltac pwp_step :=
  lazymatch goal with
  | |- page_wp (page_bind _ _) _ _ => apply pwp_bind
  | |- page_wp (page_with _ _) _ _ => unfold page_with at 1; apply pwp_bind
  | |- page_wp (page_try _ _) _ _ => apply pwp_try
  | |- page_wp (page_ret _) _ _ => apply pwp_ret
  | |- page_wp st_stop _ _ => apply pwp_stop
  | |- page_wp st_rerun _ _ => apply pwp_rerun
  | |- page_wp (show _) _ _ =>
      let r := fresh "shown" in let e := fresh "e" in let E := fresh "Hpage" in
      apply pwp_show; intros r e E; destruct r
  | |- page_wp (button _) _ _ =>
      let r := fresh "pressed" in let e := fresh "e" in let E := fresh "Hbutton" in
      apply pwp_button; intros r e E; destruct r as [[|] |]
  | |- page_wp (library_call _) _ _ =>
      let r := fresh "made" in let e := fresh "e" in let E := fresh "Hlibrary" in
      apply pwp_library; intros r e E; destruct r
  | |- page_wp (AIEducationTeam_init _) _ _ => unfold AIEducationTeam_init
  | |- page_wp read_current_team _ _ => apply pwp_read_team
  | |- page_wp (set_current_team _) _ _ => apply pwp_set_team
  | |- page_wp read_session_logs _ _ => apply pwp_read_logs
  | |- page_wp (set_session_logs _) _ _ => apply pwp_set_logs
  | |- page_wp extend_session_logs _ _ => apply pwp_extend
  | |- page_wp last_team_log _ _ => apply pwp_last_log
  | |- page_wp (team_get_ai_education _ _) _ _ =>
      let res := fresh "result" in let s := fresh "s" in let l := fresh "l" in
      let Hr := fresh "Hrun" in let Hs := fresh "Hservice" in
      apply pwp_team_run;
        [intros res s l Hr Hs | intros res s Hr; destruct res as [? | []]]
  end;
  cbv beta iota.

Ltac session_facts :=
  cbn [session_env session_workflow_logs current_team page_calls
       session_model_calls team_workflow_logs api_key fst snd].

(** ** Requests *)

Section Requests.
Context {Env : Type} {world : Collaborators Env} {platform : Platform Env}
  {runtime : PyRuntime} {text : PyText}.

Lemma filled_in_one (key a : string) :
  forallb (fun kv => str_truthy (py_strip (snd kv))) [(key, a)] =
  str_truthy (py_strip a).
Proof. cbn. apply andb_true_r. Qed.

Lemma filled_in_two (key1 a key2 b : string) :
  forallb (fun kv => str_truthy (py_strip (snd kv))) [(key1, a); (key2, b)] =
  str_truthy (py_strip a) && str_truthy (py_strip b).
Proof. cbn. now rewrite andb_true_r. Qed.

(** The five blocks have one shape. *)
Lemma handle_shape (r : Request) :
  exists heading label warning : string,
    handle r =
    if filled_in r then
      page_bind (team_get_ai_education (request_service r) (request_input r))
        (fun result =>
           page_bind extend_session_logs (fun _ =>
           page_bind (show (page_markdown heading false)) (fun _ =>
           page_bind
             (show (page_markdown
                      (("<div class=" ++ String double_quote EmptyString
                          ++ "final-guidance" ++ String double_quote EmptyString
                          ++ ">") ++ result ++ "</div>") true)) (fun _ =>
           page_with (show (page_expander label))
             (page_bind last_team_log (fun log => show (page_json log)))))))
    else show (page_warning warning).
Proof.
  destruct r; unfold filled_in, request_texts;
    rewrite ?filled_in_one, ?filled_in_two;
    do 3 eexists; reflexivity.
Qed.

(** What a filled-in request does to a session with a team, in every way it
    can end. *)
Lemma handle_filled (r : Request) (e : Env) sl key tl pc mc :
  filled_in r = true ->
  page_wp (handle r) (mkSession e sl (Some (mkTeam key tl)) pc mc)
    (fun out ss' =>
       out = Done tt ->
       exists (l : RunLog) (result heading label : string) (s' : State Env),
         AIEducationTeam.get_ai_education (request_service r) (request_input r)
           (entry e tl) = (Returned result, s') /\
         log_service_type l = request_service r /\
         current_team ss' = Some (mkTeam key (tl ++ [l])%list) /\
         session_workflow_logs ss' = (sl ++ tl ++ [l])%list /\
         session_model_calls ss' = (mc ++ model_calls s')%list /\
         page_calls ss' =
           (pc ++
            [page_markdown heading false;
             page_markdown
               (("<div class=" ++ String double_quote EmptyString
                   ++ "final-guidance" ++ String double_quote EmptyString
                   ++ ">") ++ result ++ "</div>") true;
             page_expander label;
             page_json l])%list).
Proof.
  intros Hfilled.
  destruct (handle_shape r) as (heading & label & warning & ->).
  rewrite Hfilled.
  repeat pwp_step; intros Hout; try discriminate Hout.
  session_facts. exists l, result, heading, label, s.
  repeat split; try assumption.
  now rewrite <- !app_assoc.
Qed.

End Requests.

Section Served.
Context {Env : Type} {world : Collaborators Env} {platform : Platform Env}
  {runtime : PyRuntime} {text : PyText}.


(** X7.  A filled-in request that comes to its end has run the team once, for the
    service of the button and the stripped texts.  The team has one more
    log, for that service; the session's logs have grown by all the logs
    the team now holds, its earlier ones included; and the page shows the
    heading, the returned text inside the [final-guidance] block, and in the
    expander the log of this very run. *)
Theorem filled_request_is_served (r : Request) (ss : Session Env) (team : Team) :
  filled_in r = true ->
  current_team ss = Some team ->
  fst (handle r ss) = Done tt ->
  exists (l : RunLog) (result heading label : string) (s' : State Env),
    AIEducationTeam.get_ai_education (request_service r) (request_input r)
      (entry (session_env ss) (team_workflow_logs team)) = (Returned result, s') /\
    log_service_type l = request_service r /\
    current_team (snd (handle r ss)) =
      Some (mkTeam (api_key team) (team_workflow_logs team ++ [l])%list) /\
    session_workflow_logs (snd (handle r ss)) =
      (session_workflow_logs ss ++ team_workflow_logs team ++ [l])%list /\
    session_model_calls (snd (handle r ss)) =
      (session_model_calls ss ++ model_calls s')%list /\
    page_calls (snd (handle r ss)) =
      (page_calls ss ++
       [page_markdown heading false;
        page_markdown
          (("<div class=" ++ String double_quote EmptyString
              ++ "final-guidance" ++ String double_quote EmptyString
              ++ ">") ++ result ++ "</div>") true;
        page_expander label;
        page_json l])%list.
Proof.
  intros Hfilled Hteam Hdone.
  destruct ss as [e sl ct pc mc]. cbn in Hteam. subst ct. destruct team as [key tl].
  exact (handle_filled r e sl key tl pc mc Hfilled Hdone).
Qed.

Lemma handle_all_cons_done (r : Request) (rest : list Request) (ss : Session Env) :
  fst (handle_all (r :: rest) ss) = Done tt ->
  fst (handle r ss) = Done tt /\
  handle_all (r :: rest) ss = handle_all rest (snd (handle r ss)).
Proof.
  cbn [handle_all]. unfold page_bind.
  destruct (handle r ss) as [[[] | message | |] ss1]; cbn; intros H;
    try discriminate H.
  split; reflexivity.
Qed.

Lemma triangle_step (n : nat) : S n * (S n + 1) / 2 = n * (n + 1) / 2 + S n.
Proof.
  replace (S n * (S n + 1)) with (n * (n + 1) + S n * 2) by lia.
  now rewrite Nat.div_add by discriminate.
Qed.

(** X8.  Requests served one after the other by one team pile up in the
    session's logs: each request adds all the logs of the team again.  After
    [n] filled-in requests that came to their end the team holds [n] more
    logs, after its earlier ones, and the session holds
    [n * |team logs before| + n (n + 1) / 2] more entries; in a fresh session
    with a fresh team that is 1, 3, 6, 10, ... entries for 1, 2, 3, 4, ...
    requests. *)
Theorem session_logs_pile_up (requests : list Request) (ss : Session Env)
  (team : Team) :
  forallb filled_in requests = true ->
  current_team ss = Some team ->
  fst (handle_all requests ss) = Done tt ->
  exists new : list RunLog,
    current_team (snd (handle_all requests ss)) =
      Some (mkTeam (api_key team) (team_workflow_logs team ++ new)%list) /\
    length new = length requests /\
    length (session_workflow_logs (snd (handle_all requests ss))) =
      length (session_workflow_logs ss) +
      length requests * length (team_workflow_logs team) +
      length requests * (length requests + 1) / 2.
Proof.
  revert ss team.
  induction requests as [| r rest IH]; intros ss team Hfilled Hteam Hdone.
  - exists []. cbn. rewrite app_nil_r, Hteam. destruct team. repeat split. lia.
  - cbn [forallb] in Hfilled. apply andb_true_iff in Hfilled as [Hr Hrest].
    destruct (handle_all_cons_done r rest ss Hdone) as [Hfirst Hnext].
    rewrite Hnext in Hdone |- *.
    destruct ss as [e sl ct pc mc]. cbn in Hteam. subst ct.
    destruct team as [key tl].
    pose proof (handle_filled r e sl key tl pc mc Hr Hfirst) as Hserved.
    destruct Hserved as (l & result & heading & label & s' & _ & _ & Hteam1 & Hlogs1 & _).
    destruct (IH _ _ Hrest Hteam1 Hdone) as (new & Hteam2 & Hnew & Hlength).
    exists (l :: new). cbn [api_key team_workflow_logs] in *.
    split; [| split].
    + rewrite Hteam2. now rewrite <- app_assoc.
    + cbn. now rewrite Hnew.
    + rewrite Hlength, Hlogs1. cbn [session_workflow_logs length].
      rewrite !length_app. cbn [length].
      rewrite (triangle_step (length rest)). nia.
Qed.


(** X10.  The texts of a filled-in request reach all three experts.  The mapping
    the block passes has exactly the fields its service reads, its service
    is one of the five, and each text, stripped, is non-empty and stands in
    the template of each expert. *)
Theorem request_texts_reach_every_prompt (r : Request)
  (field typed previous_explanation : string) :
  filled_in r = true ->
  In (field, typed) (request_texts r) ->
  In (request_service r) known_service_types /\
  map fst (request_input r) = service_fields (request_service r) /\
  py_strip typed <> EmptyString /\
  Contains
    (AIFoundationsExpert.select_prompt (request_service r) (request_input r))
    (py_strip typed) /\
  Contains
    (PracticalAIExpert.select_prompt previous_explanation (request_service r)
       (request_input r))
    (py_strip typed) /\
  Contains
    (LearningPathExpert.select_prompt previous_explanation (request_service r)
       (request_input r))
    (py_strip typed).
Proof.
  intros Hfilled Hin.
  assert (Hknown : In (request_service r) known_service_types).
  { destruct r; unfold known_service_types; cbn; tauto. }
  assert (Hfields : map fst (request_input r) = service_fields (request_service r)).
  { destruct r; reflexivity. }
  assert (Hnonempty : py_strip typed <> EmptyString).
  { unfold filled_in in Hfilled. rewrite forallb_forall in Hfilled.
    specialize (Hfilled _ Hin). cbn in Hfilled.
    destruct (py_strip typed); [discriminate Hfilled | discriminate]. }
  assert (Hvalue : dict_get (request_input r) field EmptyString = py_strip typed /\
                   In field (service_fields (request_service r))).
  { destruct r; cbn in Hin;
      repeat (destruct Hin as [Hin | Hin];
              [injection Hin as <- <-; split; [reflexivity | cbn; tauto] |]);
      destruct Hin. }
  destruct Hvalue as [Hvalue Hfield].
  split; [exact Hknown |]. split; [exact Hfields |]. split; [exact Hnonempty |].
  rewrite <- Hvalue.
  exact (templates_embed_field previous_explanation (request_service r) field
           (request_input r) Hfield).
Qed.

End Served.

(** ** The key and the team *)

Section KeyGate.
Context {Env : Type} {platform : Platform Env}.

(** X11.  The check of the key lets the script go on only with a non-empty key
    and a team built with that key.  Either the session already had such a
    team, which is kept with its logs and nothing is shown, or a new team
    with empty logs was built, because there was none or its key was
    another, and the success message was shown.  The session's logs are
    not touched. *)
Theorem key_gate_passes_with_matching_team (key : string) (ss : Session Env) :
  fst (api_key_gate key ss) = Done tt ->
  key <> EmptyString /\
  session_workflow_logs (snd (api_key_gate key ss)) = session_workflow_logs ss /\
  ((exists team : Team,
      current_team ss = Some team /\ api_key team = key /\
      current_team (snd (api_key_gate key ss)) = Some team /\
      page_calls (snd (api_key_gate key ss)) = page_calls ss) \/
   ((forall team : Team, current_team ss = Some team -> api_key team <> key) /\
    current_team (snd (api_key_gate key ss)) = Some (mkTeam key []) /\
    page_calls (snd (api_key_gate key ss)) =
      (page_calls ss ++ [page_success "✅ API 키가 유효합니다!"])%list)).
Proof.
  destruct ss as [e sl ct pc mc].
  change (page_wp (api_key_gate key) (mkSession e sl ct pc mc)
            (fun out ss' =>
               out = Done tt ->
               key <> EmptyString /\
               session_workflow_logs ss' = sl /\
               ((exists team : Team,
                   ct = Some team /\ api_key team = key /\
                   current_team ss' = Some team /\ page_calls ss' = pc) \/
                ((forall team : Team, ct = Some team -> api_key team <> key) /\
                 current_team ss' = Some (mkTeam key []) /\
                 page_calls ss' =
                   (pc ++ [page_success "✅ API 키가 유효합니다!"])%list)))).
  unfold api_key_gate. pwp_step.
  destruct key as [| c key]; cbn [str_truthy negb]; repeat pwp_step;
    try (intros Hout; discriminate Hout).
  destruct ct as [[key0 tl0] |]; cbn [api_key].
  - destruct (String.eqb key0 (String c key)) eqn:Hkey; cbn [negb];
      repeat pwp_step; intros Hout; try discriminate Hout.
    + apply String.eqb_eq in Hkey. subst key0.
      split; [discriminate |]. split; [reflexivity |]. left.
      eexists. repeat split.
    + apply String.eqb_neq in Hkey.
      split; [discriminate |]. split; [reflexivity |]. right.
      split; [| split; reflexivity].
      intros team Hsome. injection Hsome as <-. exact Hkey.
  - repeat pwp_step; intros Hout; try discriminate Hout.
    split; [discriminate |]. split; [reflexivity |]. right.
    split; [| split; reflexivity].
    intros team Hsome. discriminate Hsome.
Qed.



End KeyGate.
(** ** The further properties at concrete inputs *)

Lemma known_prompts_embed_fields_witness :
  In "purpose" (service_fields "AI 도구 사용법") /\
  Contains
    (AIFoundationsExpert.select_prompt (runtime := printable_runtime)
       "AI 도구 사용법" [("tool_name", "ChatGPT"); ("purpose", "report drafting")])
    "report drafting".
Proof.
  assert (Hfield : In "purpose" (service_fields "AI 도구 사용법"))
    by (vm_compute; tauto).
  split; [exact Hfield |].
  exact (proj1 (known_prompts_embed_fields (runtime := printable_runtime)
                  EmptyString "AI 도구 사용법" "purpose"
                  [("tool_name", "ChatGPT"); ("purpose", "report drafting")]
                  Hfield)).
Defined.

Lemma known_prompts_depend_on_fields_only_witness :
  In "AI 개념 이해" known_service_types /\
  (forall field : string,
     In field (service_fields "AI 개념 이해") ->
     dict_get [("note", "unused")] field EmptyString =
     dict_get [("concept", EmptyString)] field EmptyString) /\
  AIFoundationsExpert.composed_prompt (runtime := printable_runtime)
    "AI 개념 이해" [("note", "unused")] =
  AIFoundationsExpert.composed_prompt (runtime := printable_runtime)
    "AI 개념 이해" [("concept", EmptyString)].
Proof.
  assert (Hknown : In "AI 개념 이해" known_service_types)
    by (unfold known_service_types; cbn [In]; tauto).
  assert (Hsame : forall field : string,
     In field (service_fields "AI 개념 이해") ->
     dict_get [("note", "unused")] field EmptyString =
     dict_get [("concept", EmptyString)] field EmptyString).
  { intros field Hfield. vm_compute in Hfield.
    destruct Hfield as [<- | []]. reflexivity. }
  split; [exact Hknown |]. split; [exact Hsame |].
  exact (proj1 (known_prompts_depend_on_fields_only (runtime := printable_runtime)
                  EmptyString "AI 개념 이해" [("note", "unused")]
                  [("concept", EmptyString)] Hknown Hsame)).
Defined.

Lemma run_with_working_display_witness :
  ui_returns (world := scripted quota_exceeded) /\
  exists l : RunLog,
    self_workflow_logs
      (snd (AIEducationTeam.get_ai_education (world := scripted quota_exceeded)
              (runtime := printable_runtime) "AI 윤리 및 안전"
              [("area_of_interest", "fairness")] (entry 0 []))) = [l] /\
    log_status l = "completed".
Proof.
  assert (Hnominal : ui_returns (world := scripted quota_exceeded))
    by (intros c n; reflexivity).
  split; [exact Hnominal |].
  destruct (run_with_working_display (world := scripted quota_exceeded)
              (runtime := printable_runtime) 0 [] "AI 윤리 및 안전"
              [("area_of_interest", "fairness")] Hnominal)
    as (l & r3 & prompt3 & Hstored & _ & _ & _ & Hstatus & _).
  exists l. split; [exact Hstored | exact Hstatus].
Defined.


Lemma filled_request_is_served_witness :
  filled_in (text := space_text) (ConceptRequest " neural networks ") = true /\
  current_team fresh_session = Some (mkTeam "key-1" []) /\
  fst (handle (world := scripted always_X)
         (platform := scripted_platform working_platform)
         (runtime := printable_runtime) (text := space_text)
         (ConceptRequest " neural networks ") fresh_session) = Done tt /\
  exists l : RunLog,
    session_workflow_logs
      (snd (handle (world := scripted always_X)
              (platform := scripted_platform working_platform)
              (runtime := printable_runtime) (text := space_text)
              (ConceptRequest " neural networks ") fresh_session)) = [l].
Proof.
  assert (Hfilled : filled_in (text := space_text)
                      (ConceptRequest " neural networks ") = true) by reflexivity.
  assert (Hteam : current_team fresh_session = Some (mkTeam "key-1" []))
    by reflexivity.
  assert (Hdone : fst (handle (world := scripted always_X)
         (platform := scripted_platform working_platform)
         (runtime := printable_runtime) (text := space_text)
         (ConceptRequest " neural networks ") fresh_session) = Done tt)
    by (vm_compute; reflexivity).
  split; [exact Hfilled |]. split; [exact Hteam |]. split; [exact Hdone |].
  destruct (filled_request_is_served (world := scripted always_X)
              (platform := scripted_platform working_platform)
              (runtime := printable_runtime) (text := space_text)
              (ConceptRequest " neural networks ") fresh_session
              (mkTeam "key-1" []) Hfilled Hteam Hdone)
    as (l & result & heading & label & s' & _ & _ & _ & Hsession & _).
  exists l. exact Hsession.
Defined.

Lemma session_logs_pile_up_witness :
  forallb (filled_in (text := space_text)) three_requests = true /\
  current_team fresh_session = Some (mkTeam "key-1" []) /\
  fst (handle_all (world := scripted always_X)
         (platform := scripted_platform working_platform)
         (runtime := printable_runtime) (text := space_text)
         three_requests fresh_session) = Done tt /\
  length
    (session_workflow_logs
       (snd (handle_all (world := scripted always_X)
               (platform := scripted_platform working_platform)
               (runtime := printable_runtime) (text := space_text)
               three_requests fresh_session))) = 6.
Proof.
  assert (Hfilled : forallb (filled_in (text := space_text)) three_requests = true)
    by reflexivity.
  assert (Hteam : current_team fresh_session = Some (mkTeam "key-1" []))
    by reflexivity.
  assert (Hdone : fst (handle_all (world := scripted always_X)
         (platform := scripted_platform working_platform)
         (runtime := printable_runtime) (text := space_text)
         three_requests fresh_session) = Done tt)
    by (vm_compute; reflexivity).
  split; [exact Hfilled |]. split; [exact Hteam |]. split; [exact Hdone |].
  destruct (session_logs_pile_up (world := scripted always_X)
              (platform := scripted_platform working_platform)
              (runtime := printable_runtime) (text := space_text)
              three_requests fresh_session (mkTeam "key-1" [])
              Hfilled Hteam Hdone)
    as (new & _ & _ & Hlength).
  exact Hlength.
Defined.


Lemma request_texts_reach_every_prompt_witness :
  filled_in (text := space_text) (ToolRequest " ChatGPT " "report drafting") = true /\
  In ("tool_name", " ChatGPT ")
     (request_texts (ToolRequest " ChatGPT " "report drafting")) /\
  Contains
    (AIFoundationsExpert.select_prompt (runtime := printable_runtime)
       "AI 도구 사용법"
       [("tool_name", "ChatGPT"); ("purpose", "report drafting")])
    "ChatGPT".
Proof.
  assert (Hfilled : filled_in (text := space_text)
                      (ToolRequest " ChatGPT " "report drafting") = true)
    by reflexivity.
  assert (Hin : In ("tool_name", " ChatGPT ")
                   (request_texts (ToolRequest " ChatGPT " "report drafting")))
    by (left; reflexivity).
  split; [exact Hfilled |]. split; [exact Hin |].
  exact (proj1 (proj2 (proj2 (proj2
    (request_texts_reach_every_prompt (runtime := printable_runtime)
       (text := space_text) (ToolRequest " ChatGPT " "report drafting")
       "tool_name" " ChatGPT " EmptyString Hfilled Hin))))).
Defined.

Lemma key_gate_passes_with_matching_team_witness :
  fst (api_key_gate (platform := scripted_platform working_platform) "key-2"
         fresh_session) = Done tt /\
  current_team
    (snd (api_key_gate (platform := scripted_platform working_platform) "key-2"
            fresh_session)) = Some (mkTeam "key-2" []).
Proof.
  assert (Hdone : fst (api_key_gate (platform := scripted_platform working_platform)
                         "key-2" fresh_session) = Done tt) by reflexivity.
  split; [exact Hdone |].
  destruct (key_gate_passes_with_matching_team
              (platform := scripted_platform working_platform) "key-2"
              fresh_session Hdone) as (_ & _ & [Hkept | Hnew]).
  - destruct Hkept as (team & Hteam & Hkey & _).
    injection Hteam as <-. discriminate Hkey.
  - exact (proj1 (proj2 Hnew)).
Defined.

